(** * File organizer: the routing engine of [manager.py]

    A shallow embedding of the core of [manager.py] (the handler class
    [OrganizerHandler] and the module-level [log_buffer]) and the
    properties of its rule lookup, collision resolver, mover, scanner and
    activity log; the rule editor of [main] is embedded as far as it
    changes the configuration.

    Modelling conventions.
    - A Python [str] is the list of its code points; [py "abc"] writes one
      down from ASCII text. [str.lower], [str.isupper] and the context rule
      for the capital sigma follow CPython 3.11, whose tables (Unicode
      14.0) are in the module [UCD].
    - [pathlib]'s [suffix] and [stem] are transcribed from CPython
      (3.4 to 3.13): both work on the final path component, which for a
      name handed out by [os.scandir] is the name itself. [Path] is the
      text [str(Path(raw))] of a POSIX path.
    - The file system is a finite map from (directory, name) to a node,
      together with the set of existing directories. A directory is named
      by the path the system resolves a path text to ([realpath], a part
      of the world: trailing and double slashes, "..", links), so two
      texts name the same directory exactly when they resolve alike; the
      calls of the handler do not change how texts resolve. A node is a
      regular file, a directory or something else, and [is_file] is
      answered from the node: symbolic links have no node of their own,
      and the worked scenarios are worlds without them ([no_links]). A
      subdirectory shows in a listing as a node that is not a file;
      [mkdir] records that the directory exists and adds no node to its
      parent, which the scan would skip anyway.
    - [os.scandir] lists a directory as it is when it is opened, in the
      order of the map; the lemmas on the loop of [on_modified] hold for
      every list of entries.
    - Every library call that can raise ([mkdir], [exists], [shutil.move],
      [os.scandir], [DirEntry.is_file]) consults a fault plan first, so a
      call may fail for a reason the model does not track (permissions, a
      full disk, a file in the place of a directory, ...). A move that
      fails leaves both places as they were, as when the destination
      cannot be written to; a copy across file systems that breaks off
      half way is not modelled.
    - Effects are threaded by a state monad with exceptions; the only loop
      without a bound, [make_unique], takes fuel. *)

From Stdlib Require Import ZArith NArith Ascii String.
From stdpp Require Import base gmap strings pretty list fin_maps.

(** ** Python strings *)

(** A [str]: its code points. *)
Abbreviation str := (list N) (only parsing).

(** The [str] of an ASCII text. *)
Fixpoint py (s : string) : str :=
  match s with
  | EmptyString => []
  | String c s' => N_of_ascii c :: py s'
  end.
Arguments py s%_string.

(** *** The Unicode character database of CPython 3.11 (Unicode 14.0) *)

Module UCD.

(** The code points [c] with [chr(c).lower() != chr(c)], with the one code
    point they become. *)
Definition lower_pairs : list (N * N) := [
  (65,97); (66,98); (67,99); (68,100); (69,101); (70,102);
  (71,103); (72,104); (73,105); (74,106); (75,107); (76,108);
  (77,109); (78,110); (79,111); (80,112); (81,113); (82,114);
  (83,115); (84,116); (85,117); (86,118); (87,119); (88,120);
  (89,121); (90,122); (192,224); (193,225); (194,226); (195,227);
  (196,228); (197,229); (198,230); (199,231); (200,232); (201,233);
  (202,234); (203,235); (204,236); (205,237); (206,238); (207,239);
  (208,240); (209,241); (210,242); (211,243); (212,244); (213,245);
  (214,246); (216,248); (217,249); (218,250); (219,251); (220,252);
  (221,253); (222,254); (256,257); (258,259); (260,261); (262,263);
  (264,265); (266,267); (268,269); (270,271); (272,273); (274,275);
  (276,277); (278,279); (280,281); (282,283); (284,285); (286,287);
  (288,289); (290,291); (292,293); (294,295); (296,297); (298,299);
  (300,301); (302,303); (306,307); (308,309); (310,311); (313,314);
  (315,316); (317,318); (319,320); (321,322); (323,324); (325,326);
  (327,328); (330,331); (332,333); (334,335); (336,337); (338,339);
  (340,341); (342,343); (344,345); (346,347); (348,349); (350,351);
  (352,353); (354,355); (356,357); (358,359); (360,361); (362,363);
  (364,365); (366,367); (368,369); (370,371); (372,373); (374,375);
  (376,255); (377,378); (379,380); (381,382); (385,595); (386,387);
  (388,389); (390,596); (391,392); (393,598); (394,599); (395,396);
  (398,477); (399,601); (400,603); (401,402); (403,608); (404,611);
  (406,617); (407,616); (408,409); (412,623); (413,626); (415,629);
  (416,417); (418,419); (420,421); (422,640); (423,424); (425,643);
  (428,429); (430,648); (431,432); (433,650); (434,651); (435,436);
  (437,438); (439,658); (440,441); (444,445); (452,454); (453,454);
  (455,457); (456,457); (458,460); (459,460); (461,462); (463,464);
  (465,466); (467,468); (469,470); (471,472); (473,474); (475,476);
  (478,479); (480,481); (482,483); (484,485); (486,487); (488,489);
  (490,491); (492,493); (494,495); (497,499); (498,499); (500,501);
  (502,405); (503,447); (504,505); (506,507); (508,509); (510,511);
  (512,513); (514,515); (516,517); (518,519); (520,521); (522,523);
  (524,525); (526,527); (528,529); (530,531); (532,533); (534,535);
  (536,537); (538,539); (540,541); (542,543); (544,414); (546,547);
  (548,549); (550,551); (552,553); (554,555); (556,557); (558,559);
  (560,561); (562,563); (570,11365); (571,572); (573,410); (574,11366);
  (577,578); (579,384); (580,649); (581,652); (582,583); (584,585);
  (586,587); (588,589); (590,591); (880,881); (882,883); (886,887);
  (895,1011); (902,940); (904,941); (905,942); (906,943); (908,972);
  (910,973); (911,974); (913,945); (914,946); (915,947); (916,948);
  (917,949); (918,950); (919,951); (920,952); (921,953); (922,954);
  (923,955); (924,956); (925,957); (926,958); (927,959); (928,960);
  (929,961); (931,963); (932,964); (933,965); (934,966); (935,967);
  (936,968); (937,969); (938,970); (939,971); (975,983); (984,985);
  (986,987); (988,989); (990,991); (992,993); (994,995); (996,997);
  (998,999); (1000,1001); (1002,1003); (1004,1005); (1006,1007); (1012,952);
  (1015,1016); (1017,1010); (1018,1019); (1021,891); (1022,892); (1023,893);
  (1024,1104); (1025,1105); (1026,1106); (1027,1107); (1028,1108); (1029,1109);
  (1030,1110); (1031,1111); (1032,1112); (1033,1113); (1034,1114); (1035,1115);
  (1036,1116); (1037,1117); (1038,1118); (1039,1119); (1040,1072); (1041,1073);
  (1042,1074); (1043,1075); (1044,1076); (1045,1077); (1046,1078); (1047,1079);
  (1048,1080); (1049,1081); (1050,1082); (1051,1083); (1052,1084); (1053,1085);
  (1054,1086); (1055,1087); (1056,1088); (1057,1089); (1058,1090); (1059,1091);
  (1060,1092); (1061,1093); (1062,1094); (1063,1095); (1064,1096); (1065,1097);
  (1066,1098); (1067,1099); (1068,1100); (1069,1101); (1070,1102); (1071,1103);
  (1120,1121); (1122,1123); (1124,1125); (1126,1127); (1128,1129); (1130,1131);
  (1132,1133); (1134,1135); (1136,1137); (1138,1139); (1140,1141); (1142,1143);
  (1144,1145); (1146,1147); (1148,1149); (1150,1151); (1152,1153); (1162,1163);
  (1164,1165); (1166,1167); (1168,1169); (1170,1171); (1172,1173); (1174,1175);
  (1176,1177); (1178,1179); (1180,1181); (1182,1183); (1184,1185); (1186,1187);
  (1188,1189); (1190,1191); (1192,1193); (1194,1195); (1196,1197); (1198,1199);
  (1200,1201); (1202,1203); (1204,1205); (1206,1207); (1208,1209); (1210,1211);
  (1212,1213); (1214,1215); (1216,1231); (1217,1218); (1219,1220); (1221,1222);
  (1223,1224); (1225,1226); (1227,1228); (1229,1230); (1232,1233); (1234,1235);
  (1236,1237); (1238,1239); (1240,1241); (1242,1243); (1244,1245); (1246,1247);
  (1248,1249); (1250,1251); (1252,1253); (1254,1255); (1256,1257); (1258,1259);
  (1260,1261); (1262,1263); (1264,1265); (1266,1267); (1268,1269); (1270,1271);
  (1272,1273); (1274,1275); (1276,1277); (1278,1279); (1280,1281); (1282,1283);
  (1284,1285); (1286,1287); (1288,1289); (1290,1291); (1292,1293); (1294,1295);
  (1296,1297); (1298,1299); (1300,1301); (1302,1303); (1304,1305); (1306,1307);
  (1308,1309); (1310,1311); (1312,1313); (1314,1315); (1316,1317); (1318,1319);
  (1320,1321); (1322,1323); (1324,1325); (1326,1327); (1329,1377); (1330,1378);
  (1331,1379); (1332,1380); (1333,1381); (1334,1382); (1335,1383); (1336,1384);
  (1337,1385); (1338,1386); (1339,1387); (1340,1388); (1341,1389); (1342,1390);
  (1343,1391); (1344,1392); (1345,1393); (1346,1394); (1347,1395); (1348,1396);
  (1349,1397); (1350,1398); (1351,1399); (1352,1400); (1353,1401); (1354,1402);
  (1355,1403); (1356,1404); (1357,1405); (1358,1406); (1359,1407); (1360,1408);
  (1361,1409); (1362,1410); (1363,1411); (1364,1412); (1365,1413); (1366,1414);
  (4256,11520); (4257,11521); (4258,11522); (4259,11523); (4260,11524); (4261,11525);
  (4262,11526); (4263,11527); (4264,11528); (4265,11529); (4266,11530); (4267,11531);
  (4268,11532); (4269,11533); (4270,11534); (4271,11535); (4272,11536); (4273,11537);
  (4274,11538); (4275,11539); (4276,11540); (4277,11541); (4278,11542); (4279,11543);
  (4280,11544); (4281,11545); (4282,11546); (4283,11547); (4284,11548); (4285,11549);
  (4286,11550); (4287,11551); (4288,11552); (4289,11553); (4290,11554); (4291,11555);
  (4292,11556); (4293,11557); (4295,11559); (4301,11565); (5024,43888); (5025,43889);
  (5026,43890); (5027,43891); (5028,43892); (5029,43893); (5030,43894); (5031,43895);
  (5032,43896); (5033,43897); (5034,43898); (5035,43899); (5036,43900); (5037,43901);
  (5038,43902); (5039,43903); (5040,43904); (5041,43905); (5042,43906); (5043,43907);
  (5044,43908); (5045,43909); (5046,43910); (5047,43911); (5048,43912); (5049,43913);
  (5050,43914); (5051,43915); (5052,43916); (5053,43917); (5054,43918); (5055,43919);
  (5056,43920); (5057,43921); (5058,43922); (5059,43923); (5060,43924); (5061,43925);
  (5062,43926); (5063,43927); (5064,43928); (5065,43929); (5066,43930); (5067,43931);
  (5068,43932); (5069,43933); (5070,43934); (5071,43935); (5072,43936); (5073,43937);
  (5074,43938); (5075,43939); (5076,43940); (5077,43941); (5078,43942); (5079,43943);
  (5080,43944); (5081,43945); (5082,43946); (5083,43947); (5084,43948); (5085,43949);
  (5086,43950); (5087,43951); (5088,43952); (5089,43953); (5090,43954); (5091,43955);
  (5092,43956); (5093,43957); (5094,43958); (5095,43959); (5096,43960); (5097,43961);
  (5098,43962); (5099,43963); (5100,43964); (5101,43965); (5102,43966); (5103,43967);
  (5104,5112); (5105,5113); (5106,5114); (5107,5115); (5108,5116); (5109,5117);
  (7312,4304); (7313,4305); (7314,4306); (7315,4307); (7316,4308); (7317,4309);
  (7318,4310); (7319,4311); (7320,4312); (7321,4313); (7322,4314); (7323,4315);
  (7324,4316); (7325,4317); (7326,4318); (7327,4319); (7328,4320); (7329,4321);
  (7330,4322); (7331,4323); (7332,4324); (7333,4325); (7334,4326); (7335,4327);
  (7336,4328); (7337,4329); (7338,4330); (7339,4331); (7340,4332); (7341,4333);
  (7342,4334); (7343,4335); (7344,4336); (7345,4337); (7346,4338); (7347,4339);
  (7348,4340); (7349,4341); (7350,4342); (7351,4343); (7352,4344); (7353,4345);
  (7354,4346); (7357,4349); (7358,4350); (7359,4351); (7680,7681); (7682,7683);
  (7684,7685); (7686,7687); (7688,7689); (7690,7691); (7692,7693); (7694,7695);
  (7696,7697); (7698,7699); (7700,7701); (7702,7703); (7704,7705); (7706,7707);
  (7708,7709); (7710,7711); (7712,7713); (7714,7715); (7716,7717); (7718,7719);
  (7720,7721); (7722,7723); (7724,7725); (7726,7727); (7728,7729); (7730,7731);
  (7732,7733); (7734,7735); (7736,7737); (7738,7739); (7740,7741); (7742,7743);
  (7744,7745); (7746,7747); (7748,7749); (7750,7751); (7752,7753); (7754,7755);
  (7756,7757); (7758,7759); (7760,7761); (7762,7763); (7764,7765); (7766,7767);
  (7768,7769); (7770,7771); (7772,7773); (7774,7775); (7776,7777); (7778,7779);
  (7780,7781); (7782,7783); (7784,7785); (7786,7787); (7788,7789); (7790,7791);
  (7792,7793); (7794,7795); (7796,7797); (7798,7799); (7800,7801); (7802,7803);
  (7804,7805); (7806,7807); (7808,7809); (7810,7811); (7812,7813); (7814,7815);
  (7816,7817); (7818,7819); (7820,7821); (7822,7823); (7824,7825); (7826,7827);
  (7828,7829); (7838,223); (7840,7841); (7842,7843); (7844,7845); (7846,7847);
  (7848,7849); (7850,7851); (7852,7853); (7854,7855); (7856,7857); (7858,7859);
  (7860,7861); (7862,7863); (7864,7865); (7866,7867); (7868,7869); (7870,7871);
  (7872,7873); (7874,7875); (7876,7877); (7878,7879); (7880,7881); (7882,7883);
  (7884,7885); (7886,7887); (7888,7889); (7890,7891); (7892,7893); (7894,7895);
  (7896,7897); (7898,7899); (7900,7901); (7902,7903); (7904,7905); (7906,7907);
  (7908,7909); (7910,7911); (7912,7913); (7914,7915); (7916,7917); (7918,7919);
  (7920,7921); (7922,7923); (7924,7925); (7926,7927); (7928,7929); (7930,7931);
  (7932,7933); (7934,7935); (7944,7936); (7945,7937); (7946,7938); (7947,7939);
  (7948,7940); (7949,7941); (7950,7942); (7951,7943); (7960,7952); (7961,7953);
  (7962,7954); (7963,7955); (7964,7956); (7965,7957); (7976,7968); (7977,7969);
  (7978,7970); (7979,7971); (7980,7972); (7981,7973); (7982,7974); (7983,7975);
  (7992,7984); (7993,7985); (7994,7986); (7995,7987); (7996,7988); (7997,7989);
  (7998,7990); (7999,7991); (8008,8000); (8009,8001); (8010,8002); (8011,8003);
  (8012,8004); (8013,8005); (8025,8017); (8027,8019); (8029,8021); (8031,8023);
  (8040,8032); (8041,8033); (8042,8034); (8043,8035); (8044,8036); (8045,8037);
  (8046,8038); (8047,8039); (8072,8064); (8073,8065); (8074,8066); (8075,8067);
  (8076,8068); (8077,8069); (8078,8070); (8079,8071); (8088,8080); (8089,8081);
  (8090,8082); (8091,8083); (8092,8084); (8093,8085); (8094,8086); (8095,8087);
  (8104,8096); (8105,8097); (8106,8098); (8107,8099); (8108,8100); (8109,8101);
  (8110,8102); (8111,8103); (8120,8112); (8121,8113); (8122,8048); (8123,8049);
  (8124,8115); (8136,8050); (8137,8051); (8138,8052); (8139,8053); (8140,8131);
  (8152,8144); (8153,8145); (8154,8054); (8155,8055); (8168,8160); (8169,8161);
  (8170,8058); (8171,8059); (8172,8165); (8184,8056); (8185,8057); (8186,8060);
  (8187,8061); (8188,8179); (8486,969); (8490,107); (8491,229); (8498,8526);
  (8544,8560); (8545,8561); (8546,8562); (8547,8563); (8548,8564); (8549,8565);
  (8550,8566); (8551,8567); (8552,8568); (8553,8569); (8554,8570); (8555,8571);
  (8556,8572); (8557,8573); (8558,8574); (8559,8575); (8579,8580); (9398,9424);
  (9399,9425); (9400,9426); (9401,9427); (9402,9428); (9403,9429); (9404,9430);
  (9405,9431); (9406,9432); (9407,9433); (9408,9434); (9409,9435); (9410,9436);
  (9411,9437); (9412,9438); (9413,9439); (9414,9440); (9415,9441); (9416,9442);
  (9417,9443); (9418,9444); (9419,9445); (9420,9446); (9421,9447); (9422,9448);
  (9423,9449); (11264,11312); (11265,11313); (11266,11314); (11267,11315); (11268,11316);
  (11269,11317); (11270,11318); (11271,11319); (11272,11320); (11273,11321); (11274,11322);
  (11275,11323); (11276,11324); (11277,11325); (11278,11326); (11279,11327); (11280,11328);
  (11281,11329); (11282,11330); (11283,11331); (11284,11332); (11285,11333); (11286,11334);
  (11287,11335); (11288,11336); (11289,11337); (11290,11338); (11291,11339); (11292,11340);
  (11293,11341); (11294,11342); (11295,11343); (11296,11344); (11297,11345); (11298,11346);
  (11299,11347); (11300,11348); (11301,11349); (11302,11350); (11303,11351); (11304,11352);
  (11305,11353); (11306,11354); (11307,11355); (11308,11356); (11309,11357); (11310,11358);
  (11311,11359); (11360,11361); (11362,619); (11363,7549); (11364,637); (11367,11368);
  (11369,11370); (11371,11372); (11373,593); (11374,625); (11375,592); (11376,594);
  (11378,11379); (11381,11382); (11390,575); (11391,576); (11392,11393); (11394,11395);
  (11396,11397); (11398,11399); (11400,11401); (11402,11403); (11404,11405); (11406,11407);
  (11408,11409); (11410,11411); (11412,11413); (11414,11415); (11416,11417); (11418,11419);
  (11420,11421); (11422,11423); (11424,11425); (11426,11427); (11428,11429); (11430,11431);
  (11432,11433); (11434,11435); (11436,11437); (11438,11439); (11440,11441); (11442,11443);
  (11444,11445); (11446,11447); (11448,11449); (11450,11451); (11452,11453); (11454,11455);
  (11456,11457); (11458,11459); (11460,11461); (11462,11463); (11464,11465); (11466,11467);
  (11468,11469); (11470,11471); (11472,11473); (11474,11475); (11476,11477); (11478,11479);
  (11480,11481); (11482,11483); (11484,11485); (11486,11487); (11488,11489); (11490,11491);
  (11499,11500); (11501,11502); (11506,11507); (42560,42561); (42562,42563); (42564,42565);
  (42566,42567); (42568,42569); (42570,42571); (42572,42573); (42574,42575); (42576,42577);
  (42578,42579); (42580,42581); (42582,42583); (42584,42585); (42586,42587); (42588,42589);
  (42590,42591); (42592,42593); (42594,42595); (42596,42597); (42598,42599); (42600,42601);
  (42602,42603); (42604,42605); (42624,42625); (42626,42627); (42628,42629); (42630,42631);
  (42632,42633); (42634,42635); (42636,42637); (42638,42639); (42640,42641); (42642,42643);
  (42644,42645); (42646,42647); (42648,42649); (42650,42651); (42786,42787); (42788,42789);
  (42790,42791); (42792,42793); (42794,42795); (42796,42797); (42798,42799); (42802,42803);
  (42804,42805); (42806,42807); (42808,42809); (42810,42811); (42812,42813); (42814,42815);
  (42816,42817); (42818,42819); (42820,42821); (42822,42823); (42824,42825); (42826,42827);
  (42828,42829); (42830,42831); (42832,42833); (42834,42835); (42836,42837); (42838,42839);
  (42840,42841); (42842,42843); (42844,42845); (42846,42847); (42848,42849); (42850,42851);
  (42852,42853); (42854,42855); (42856,42857); (42858,42859); (42860,42861); (42862,42863);
  (42873,42874); (42875,42876); (42877,7545); (42878,42879); (42880,42881); (42882,42883);
  (42884,42885); (42886,42887); (42891,42892); (42893,613); (42896,42897); (42898,42899);
  (42902,42903); (42904,42905); (42906,42907); (42908,42909); (42910,42911); (42912,42913);
  (42914,42915); (42916,42917); (42918,42919); (42920,42921); (42922,614); (42923,604);
  (42924,609); (42925,620); (42926,618); (42928,670); (42929,647); (42930,669);
  (42931,43859); (42932,42933); (42934,42935); (42936,42937); (42938,42939); (42940,42941);
  (42942,42943); (42944,42945); (42946,42947); (42948,42900); (42949,642); (42950,7566);
  (42951,42952); (42953,42954); (42960,42961); (42966,42967); (42968,42969); (42997,42998);
  (65313,65345); (65314,65346); (65315,65347); (65316,65348); (65317,65349); (65318,65350);
  (65319,65351); (65320,65352); (65321,65353); (65322,65354); (65323,65355); (65324,65356);
  (65325,65357); (65326,65358); (65327,65359); (65328,65360); (65329,65361); (65330,65362);
  (65331,65363); (65332,65364); (65333,65365); (65334,65366); (65335,65367); (65336,65368);
  (65337,65369); (65338,65370); (66560,66600); (66561,66601); (66562,66602); (66563,66603);
  (66564,66604); (66565,66605); (66566,66606); (66567,66607); (66568,66608); (66569,66609);
  (66570,66610); (66571,66611); (66572,66612); (66573,66613); (66574,66614); (66575,66615);
  (66576,66616); (66577,66617); (66578,66618); (66579,66619); (66580,66620); (66581,66621);
  (66582,66622); (66583,66623); (66584,66624); (66585,66625); (66586,66626); (66587,66627);
  (66588,66628); (66589,66629); (66590,66630); (66591,66631); (66592,66632); (66593,66633);
  (66594,66634); (66595,66635); (66596,66636); (66597,66637); (66598,66638); (66599,66639);
  (66736,66776); (66737,66777); (66738,66778); (66739,66779); (66740,66780); (66741,66781);
  (66742,66782); (66743,66783); (66744,66784); (66745,66785); (66746,66786); (66747,66787);
  (66748,66788); (66749,66789); (66750,66790); (66751,66791); (66752,66792); (66753,66793);
  (66754,66794); (66755,66795); (66756,66796); (66757,66797); (66758,66798); (66759,66799);
  (66760,66800); (66761,66801); (66762,66802); (66763,66803); (66764,66804); (66765,66805);
  (66766,66806); (66767,66807); (66768,66808); (66769,66809); (66770,66810); (66771,66811);
  (66928,66967); (66929,66968); (66930,66969); (66931,66970); (66932,66971); (66933,66972);
  (66934,66973); (66935,66974); (66936,66975); (66937,66976); (66938,66977); (66940,66979);
  (66941,66980); (66942,66981); (66943,66982); (66944,66983); (66945,66984); (66946,66985);
  (66947,66986); (66948,66987); (66949,66988); (66950,66989); (66951,66990); (66952,66991);
  (66953,66992); (66954,66993); (66956,66995); (66957,66996); (66958,66997); (66959,66998);
  (66960,66999); (66961,67000); (66962,67001); (66964,67003); (66965,67004); (68736,68800);
  (68737,68801); (68738,68802); (68739,68803); (68740,68804); (68741,68805); (68742,68806);
  (68743,68807); (68744,68808); (68745,68809); (68746,68810); (68747,68811); (68748,68812);
  (68749,68813); (68750,68814); (68751,68815); (68752,68816); (68753,68817); (68754,68818);
  (68755,68819); (68756,68820); (68757,68821); (68758,68822); (68759,68823); (68760,68824);
  (68761,68825); (68762,68826); (68763,68827); (68764,68828); (68765,68829); (68766,68830);
  (68767,68831); (68768,68832); (68769,68833); (68770,68834); (68771,68835); (68772,68836);
  (68773,68837); (68774,68838); (68775,68839); (68776,68840); (68777,68841); (68778,68842);
  (68779,68843); (68780,68844); (68781,68845); (68782,68846); (68783,68847); (68784,68848);
  (68785,68849); (68786,68850); (71840,71872); (71841,71873); (71842,71874); (71843,71875);
  (71844,71876); (71845,71877); (71846,71878); (71847,71879); (71848,71880); (71849,71881);
  (71850,71882); (71851,71883); (71852,71884); (71853,71885); (71854,71886); (71855,71887);
  (71856,71888); (71857,71889); (71858,71890); (71859,71891); (71860,71892); (71861,71893);
  (71862,71894); (71863,71895); (71864,71896); (71865,71897); (71866,71898); (71867,71899);
  (71868,71900); (71869,71901); (71870,71902); (71871,71903); (93760,93792); (93761,93793);
  (93762,93794); (93763,93795); (93764,93796); (93765,93797); (93766,93798); (93767,93799);
  (93768,93800); (93769,93801); (93770,93802); (93771,93803); (93772,93804); (93773,93805);
  (93774,93806); (93775,93807); (93776,93808); (93777,93809); (93778,93810); (93779,93811);
  (93780,93812); (93781,93813); (93782,93814); (93783,93815); (93784,93816); (93785,93817);
  (93786,93818); (93787,93819); (93788,93820); (93789,93821); (93790,93822); (93791,93823);
  (125184,125218); (125185,125219); (125186,125220); (125187,125221); (125188,125222); (125189,125223);
  (125190,125224); (125191,125225); (125192,125226); (125193,125227); (125194,125228); (125195,125229);
  (125196,125230); (125197,125231); (125198,125232); (125199,125233); (125200,125234); (125201,125235);
  (125202,125236); (125203,125237); (125204,125238); (125205,125239); (125206,125240); (125207,125241);
  (125208,125242); (125209,125243); (125210,125244); (125211,125245); (125212,125246); (125213,125247);
  (125214,125248); (125215,125249); (125216,125250); (125217,125251)
]%N.

(** The code point whose lowercase form is more than one code point. *)
Definition lower_special : list (N * list N) := [(304, [105; 775])]%N.

(** The ranges of the code points [c] with [chr(c).isupper()]. *)
Definition uppercase_ranges : list (N * N) := [
  (65,90); (192,214); (216,222); (256,256); (258,258); (260,260);
  (262,262); (264,264); (266,266); (268,268); (270,270); (272,272);
  (274,274); (276,276); (278,278); (280,280); (282,282); (284,284);
  (286,286); (288,288); (290,290); (292,292); (294,294); (296,296);
  (298,298); (300,300); (302,302); (304,304); (306,306); (308,308);
  (310,310); (313,313); (315,315); (317,317); (319,319); (321,321);
  (323,323); (325,325); (327,327); (330,330); (332,332); (334,334);
  (336,336); (338,338); (340,340); (342,342); (344,344); (346,346);
  (348,348); (350,350); (352,352); (354,354); (356,356); (358,358);
  (360,360); (362,362); (364,364); (366,366); (368,368); (370,370);
  (372,372); (374,374); (376,377); (379,379); (381,381); (385,386);
  (388,388); (390,391); (393,395); (398,401); (403,404); (406,408);
  (412,413); (415,416); (418,418); (420,420); (422,423); (425,425);
  (428,428); (430,431); (433,435); (437,437); (439,440); (444,444);
  (452,452); (455,455); (458,458); (461,461); (463,463); (465,465);
  (467,467); (469,469); (471,471); (473,473); (475,475); (478,478);
  (480,480); (482,482); (484,484); (486,486); (488,488); (490,490);
  (492,492); (494,494); (497,497); (500,500); (502,504); (506,506);
  (508,508); (510,510); (512,512); (514,514); (516,516); (518,518);
  (520,520); (522,522); (524,524); (526,526); (528,528); (530,530);
  (532,532); (534,534); (536,536); (538,538); (540,540); (542,542);
  (544,544); (546,546); (548,548); (550,550); (552,552); (554,554);
  (556,556); (558,558); (560,560); (562,562); (570,571); (573,574);
  (577,577); (579,582); (584,584); (586,586); (588,588); (590,590);
  (880,880); (882,882); (886,886); (895,895); (902,902); (904,906);
  (908,908); (910,911); (913,929); (931,939); (975,975); (978,980);
  (984,984); (986,986); (988,988); (990,990); (992,992); (994,994);
  (996,996); (998,998); (1000,1000); (1002,1002); (1004,1004); (1006,1006);
  (1012,1012); (1015,1015); (1017,1018); (1021,1071); (1120,1120); (1122,1122);
  (1124,1124); (1126,1126); (1128,1128); (1130,1130); (1132,1132); (1134,1134);
  (1136,1136); (1138,1138); (1140,1140); (1142,1142); (1144,1144); (1146,1146);
  (1148,1148); (1150,1150); (1152,1152); (1162,1162); (1164,1164); (1166,1166);
  (1168,1168); (1170,1170); (1172,1172); (1174,1174); (1176,1176); (1178,1178);
  (1180,1180); (1182,1182); (1184,1184); (1186,1186); (1188,1188); (1190,1190);
  (1192,1192); (1194,1194); (1196,1196); (1198,1198); (1200,1200); (1202,1202);
  (1204,1204); (1206,1206); (1208,1208); (1210,1210); (1212,1212); (1214,1214);
  (1216,1217); (1219,1219); (1221,1221); (1223,1223); (1225,1225); (1227,1227);
  (1229,1229); (1232,1232); (1234,1234); (1236,1236); (1238,1238); (1240,1240);
  (1242,1242); (1244,1244); (1246,1246); (1248,1248); (1250,1250); (1252,1252);
  (1254,1254); (1256,1256); (1258,1258); (1260,1260); (1262,1262); (1264,1264);
  (1266,1266); (1268,1268); (1270,1270); (1272,1272); (1274,1274); (1276,1276);
  (1278,1278); (1280,1280); (1282,1282); (1284,1284); (1286,1286); (1288,1288);
  (1290,1290); (1292,1292); (1294,1294); (1296,1296); (1298,1298); (1300,1300);
  (1302,1302); (1304,1304); (1306,1306); (1308,1308); (1310,1310); (1312,1312);
  (1314,1314); (1316,1316); (1318,1318); (1320,1320); (1322,1322); (1324,1324);
  (1326,1326); (1329,1366); (4256,4293); (4295,4295); (4301,4301); (5024,5109);
  (7312,7354); (7357,7359); (7680,7680); (7682,7682); (7684,7684); (7686,7686);
  (7688,7688); (7690,7690); (7692,7692); (7694,7694); (7696,7696); (7698,7698);
  (7700,7700); (7702,7702); (7704,7704); (7706,7706); (7708,7708); (7710,7710);
  (7712,7712); (7714,7714); (7716,7716); (7718,7718); (7720,7720); (7722,7722);
  (7724,7724); (7726,7726); (7728,7728); (7730,7730); (7732,7732); (7734,7734);
  (7736,7736); (7738,7738); (7740,7740); (7742,7742); (7744,7744); (7746,7746);
  (7748,7748); (7750,7750); (7752,7752); (7754,7754); (7756,7756); (7758,7758);
  (7760,7760); (7762,7762); (7764,7764); (7766,7766); (7768,7768); (7770,7770);
  (7772,7772); (7774,7774); (7776,7776); (7778,7778); (7780,7780); (7782,7782);
  (7784,7784); (7786,7786); (7788,7788); (7790,7790); (7792,7792); (7794,7794);
  (7796,7796); (7798,7798); (7800,7800); (7802,7802); (7804,7804); (7806,7806);
  (7808,7808); (7810,7810); (7812,7812); (7814,7814); (7816,7816); (7818,7818);
  (7820,7820); (7822,7822); (7824,7824); (7826,7826); (7828,7828); (7838,7838);
  (7840,7840); (7842,7842); (7844,7844); (7846,7846); (7848,7848); (7850,7850);
  (7852,7852); (7854,7854); (7856,7856); (7858,7858); (7860,7860); (7862,7862);
  (7864,7864); (7866,7866); (7868,7868); (7870,7870); (7872,7872); (7874,7874);
  (7876,7876); (7878,7878); (7880,7880); (7882,7882); (7884,7884); (7886,7886);
  (7888,7888); (7890,7890); (7892,7892); (7894,7894); (7896,7896); (7898,7898);
  (7900,7900); (7902,7902); (7904,7904); (7906,7906); (7908,7908); (7910,7910);
  (7912,7912); (7914,7914); (7916,7916); (7918,7918); (7920,7920); (7922,7922);
  (7924,7924); (7926,7926); (7928,7928); (7930,7930); (7932,7932); (7934,7934);
  (7944,7951); (7960,7965); (7976,7983); (7992,7999); (8008,8013); (8025,8025);
  (8027,8027); (8029,8029); (8031,8031); (8040,8047); (8120,8123); (8136,8139);
  (8152,8155); (8168,8172); (8184,8187); (8450,8450); (8455,8455); (8459,8461);
  (8464,8466); (8469,8469); (8473,8477); (8484,8484); (8486,8486); (8488,8488);
  (8490,8493); (8496,8499); (8510,8511); (8517,8517); (8544,8559); (8579,8579);
  (9398,9423); (11264,11311); (11360,11360); (11362,11364); (11367,11367); (11369,11369);
  (11371,11371); (11373,11376); (11378,11378); (11381,11381); (11390,11392); (11394,11394);
  (11396,11396); (11398,11398); (11400,11400); (11402,11402); (11404,11404); (11406,11406);
  (11408,11408); (11410,11410); (11412,11412); (11414,11414); (11416,11416); (11418,11418);
  (11420,11420); (11422,11422); (11424,11424); (11426,11426); (11428,11428); (11430,11430);
  (11432,11432); (11434,11434); (11436,11436); (11438,11438); (11440,11440); (11442,11442);
  (11444,11444); (11446,11446); (11448,11448); (11450,11450); (11452,11452); (11454,11454);
  (11456,11456); (11458,11458); (11460,11460); (11462,11462); (11464,11464); (11466,11466);
  (11468,11468); (11470,11470); (11472,11472); (11474,11474); (11476,11476); (11478,11478);
  (11480,11480); (11482,11482); (11484,11484); (11486,11486); (11488,11488); (11490,11490);
  (11499,11499); (11501,11501); (11506,11506); (42560,42560); (42562,42562); (42564,42564);
  (42566,42566); (42568,42568); (42570,42570); (42572,42572); (42574,42574); (42576,42576);
  (42578,42578); (42580,42580); (42582,42582); (42584,42584); (42586,42586); (42588,42588);
  (42590,42590); (42592,42592); (42594,42594); (42596,42596); (42598,42598); (42600,42600);
  (42602,42602); (42604,42604); (42624,42624); (42626,42626); (42628,42628); (42630,42630);
  (42632,42632); (42634,42634); (42636,42636); (42638,42638); (42640,42640); (42642,42642);
  (42644,42644); (42646,42646); (42648,42648); (42650,42650); (42786,42786); (42788,42788);
  (42790,42790); (42792,42792); (42794,42794); (42796,42796); (42798,42798); (42802,42802);
  (42804,42804); (42806,42806); (42808,42808); (42810,42810); (42812,42812); (42814,42814);
  (42816,42816); (42818,42818); (42820,42820); (42822,42822); (42824,42824); (42826,42826);
  (42828,42828); (42830,42830); (42832,42832); (42834,42834); (42836,42836); (42838,42838);
  (42840,42840); (42842,42842); (42844,42844); (42846,42846); (42848,42848); (42850,42850);
  (42852,42852); (42854,42854); (42856,42856); (42858,42858); (42860,42860); (42862,42862);
  (42873,42873); (42875,42875); (42877,42878); (42880,42880); (42882,42882); (42884,42884);
  (42886,42886); (42891,42891); (42893,42893); (42896,42896); (42898,42898); (42902,42902);
  (42904,42904); (42906,42906); (42908,42908); (42910,42910); (42912,42912); (42914,42914);
  (42916,42916); (42918,42918); (42920,42920); (42922,42926); (42928,42932); (42934,42934);
  (42936,42936); (42938,42938); (42940,42940); (42942,42942); (42944,42944); (42946,42946);
  (42948,42951); (42953,42953); (42960,42960); (42966,42966); (42968,42968); (42997,42997);
  (65313,65338); (66560,66599); (66736,66771); (66928,66938); (66940,66954); (66956,66962);
  (66964,66965); (68736,68786); (71840,71871); (93760,93791); (119808,119833); (119860,119885);
  (119912,119937); (119964,119964); (119966,119967); (119970,119970); (119973,119974); (119977,119980);
  (119982,119989); (120016,120041); (120068,120069); (120071,120074); (120077,120084); (120086,120092);
  (120120,120121); (120123,120126); (120128,120132); (120134,120134); (120138,120144); (120172,120197);
  (120224,120249); (120276,120301); (120328,120353); (120380,120405); (120432,120457); (120488,120512);
  (120546,120570); (120604,120628); (120662,120686); (120720,120744); (120778,120778); (125184,125217);
  (127280,127305); (127312,127337); (127344,127369)
]%N.

(** The ranges of the code points with the property Case_Ignorable. *)
Definition case_ignorable_ranges : list (N * N) := [
  (39,39); (46,46); (58,58); (94,94); (96,96); (168,168);
  (173,173); (175,175); (180,180); (183,184); (688,879); (884,885);
  (890,890); (900,901); (903,903); (1155,1161); (1369,1369); (1375,1375);
  (1425,1469); (1471,1471); (1473,1474); (1476,1477); (1479,1479); (1524,1524);
  (1536,1541); (1552,1562); (1564,1564); (1600,1600); (1611,1631); (1648,1648);
  (1750,1757); (1759,1768); (1770,1773); (1807,1807); (1809,1809); (1840,1866);
  (1958,1968); (2027,2037); (2042,2042); (2045,2045); (2070,2093); (2137,2139);
  (2184,2184); (2192,2193); (2200,2207); (2249,2306); (2362,2362); (2364,2364);
  (2369,2376); (2381,2381); (2385,2391); (2402,2403); (2417,2417); (2433,2433);
  (2492,2492); (2497,2500); (2509,2509); (2530,2531); (2558,2558); (2561,2562);
  (2620,2620); (2625,2626); (2631,2632); (2635,2637); (2641,2641); (2672,2673);
  (2677,2677); (2689,2690); (2748,2748); (2753,2757); (2759,2760); (2765,2765);
  (2786,2787); (2810,2815); (2817,2817); (2876,2876); (2879,2879); (2881,2884);
  (2893,2893); (2901,2902); (2914,2915); (2946,2946); (3008,3008); (3021,3021);
  (3072,3072); (3076,3076); (3132,3132); (3134,3136); (3142,3144); (3146,3149);
  (3157,3158); (3170,3171); (3201,3201); (3260,3260); (3263,3263); (3270,3270);
  (3276,3277); (3298,3299); (3328,3329); (3387,3388); (3393,3396); (3405,3405);
  (3426,3427); (3457,3457); (3530,3530); (3538,3540); (3542,3542); (3633,3633);
  (3636,3642); (3654,3662); (3761,3761); (3764,3772); (3782,3782); (3784,3789);
  (3864,3865); (3893,3893); (3895,3895); (3897,3897); (3953,3966); (3968,3972);
  (3974,3975); (3981,3991); (3993,4028); (4038,4038); (4141,4144); (4146,4151);
  (4153,4154); (4157,4158); (4184,4185); (4190,4192); (4209,4212); (4226,4226);
  (4229,4230); (4237,4237); (4253,4253); (4348,4348); (4957,4959); (5906,5908);
  (5938,5939); (5970,5971); (6002,6003); (6068,6069); (6071,6077); (6086,6086);
  (6089,6099); (6103,6103); (6109,6109); (6155,6159); (6211,6211); (6277,6278);
  (6313,6313); (6432,6434); (6439,6440); (6450,6450); (6457,6459); (6679,6680);
  (6683,6683); (6742,6742); (6744,6750); (6752,6752); (6754,6754); (6757,6764);
  (6771,6780); (6783,6783); (6823,6823); (6832,6862); (6912,6915); (6964,6964);
  (6966,6970); (6972,6972); (6978,6978); (7019,7027); (7040,7041); (7074,7077);
  (7080,7081); (7083,7085); (7142,7142); (7144,7145); (7149,7149); (7151,7153);
  (7212,7219); (7222,7223); (7288,7293); (7376,7378); (7380,7392); (7394,7400);
  (7405,7405); (7412,7412); (7416,7417); (7468,7530); (7544,7544); (7579,7679);
  (8125,8125); (8127,8129); (8141,8143); (8157,8159); (8173,8175); (8189,8190);
  (8203,8207); (8216,8217); (8228,8228); (8231,8231); (8234,8238); (8288,8292);
  (8294,8303); (8305,8305); (8319,8319); (8336,8348); (8400,8432); (11388,11389);
  (11503,11505); (11631,11631); (11647,11647); (11744,11775); (11823,11823); (12293,12293);
  (12330,12333); (12337,12341); (12347,12347); (12441,12446); (12540,12542); (40981,40981);
  (42232,42237); (42508,42508); (42607,42610); (42612,42621); (42623,42623); (42652,42655);
  (42736,42737); (42752,42785); (42864,42864); (42888,42890); (42994,42996); (43000,43001);
  (43010,43010); (43014,43014); (43019,43019); (43045,43046); (43052,43052); (43204,43205);
  (43232,43249); (43263,43263); (43302,43309); (43335,43345); (43392,43394); (43443,43443);
  (43446,43449); (43452,43453); (43471,43471); (43493,43494); (43561,43566); (43569,43570);
  (43573,43574); (43587,43587); (43596,43596); (43632,43632); (43644,43644); (43696,43696);
  (43698,43700); (43703,43704); (43710,43711); (43713,43713); (43741,43741); (43756,43757);
  (43763,43764); (43766,43766); (43867,43871); (43881,43883); (44005,44005); (44008,44008);
  (44013,44013); (64286,64286); (64434,64450); (65024,65039); (65043,65043); (65056,65071);
  (65106,65106); (65109,65109); (65279,65279); (65287,65287); (65294,65294); (65306,65306);
  (65342,65342); (65344,65344); (65392,65392); (65438,65439); (65507,65507); (65529,65531);
  (66045,66045); (66272,66272); (66422,66426); (67456,67461); (67463,67504); (67506,67514);
  (68097,68099); (68101,68102); (68108,68111); (68152,68154); (68159,68159); (68325,68326);
  (68900,68903); (69291,69292); (69446,69456); (69506,69509); (69633,69633); (69688,69702);
  (69744,69744); (69747,69748); (69759,69761); (69811,69814); (69817,69818); (69821,69821);
  (69826,69826); (69837,69837); (69888,69890); (69927,69931); (69933,69940); (70003,70003);
  (70016,70017); (70070,70078); (70089,70092); (70095,70095); (70191,70193); (70196,70196);
  (70198,70199); (70206,70206); (70367,70367); (70371,70378); (70400,70401); (70459,70460);
  (70464,70464); (70502,70508); (70512,70516); (70712,70719); (70722,70724); (70726,70726);
  (70750,70750); (70835,70840); (70842,70842); (70847,70848); (70850,70851); (71090,71093);
  (71100,71101); (71103,71104); (71132,71133); (71219,71226); (71229,71229); (71231,71232);
  (71339,71339); (71341,71341); (71344,71349); (71351,71351); (71453,71455); (71458,71461);
  (71463,71467); (71727,71735); (71737,71738); (71995,71996); (71998,71998); (72003,72003);
  (72148,72151); (72154,72155); (72160,72160); (72193,72202); (72243,72248); (72251,72254);
  (72263,72263); (72273,72278); (72281,72283); (72330,72342); (72344,72345); (72752,72758);
  (72760,72765); (72767,72767); (72850,72871); (72874,72880); (72882,72883); (72885,72886);
  (73009,73014); (73018,73018); (73020,73021); (73023,73029); (73031,73031); (73104,73105);
  (73109,73109); (73111,73111); (73459,73460); (78896,78904); (92912,92916); (92976,92982);
  (92992,92995); (94031,94031); (94095,94111); (94176,94177); (94179,94180); (110576,110579);
  (110581,110587); (110589,110590); (113821,113822); (113824,113827); (118528,118573); (118576,118598);
  (119143,119145); (119155,119170); (119173,119179); (119210,119213); (119362,119364); (121344,121398);
  (121403,121452); (121461,121461); (121476,121476); (121499,121503); (121505,121519); (122880,122886);
  (122888,122904); (122907,122913); (122915,122916); (122918,122922); (123184,123197); (123566,123566);
  (123628,123631); (125136,125142); (125252,125259); (127995,127999); (917505,917505); (917536,917631);
  (917760,917999)
]%N.

(** The ranges of the code points with the property Cased that are not
    Case_Ignorable. *)
Definition cased_ranges : list (N * N) := [
  (65,90); (97,122); (170,170); (181,181); (186,186); (192,214);
  (216,246); (248,442); (444,447); (452,659); (661,687); (880,883);
  (886,887); (891,893); (895,895); (902,902); (904,906); (908,908);
  (910,929); (931,1013); (1015,1153); (1162,1327); (1329,1366); (1376,1416);
  (4256,4293); (4295,4295); (4301,4301); (4304,4346); (4349,4351); (5024,5109);
  (5112,5117); (7296,7304); (7312,7354); (7357,7359); (7424,7467); (7531,7543);
  (7545,7578); (7680,7957); (7960,7965); (7968,8005); (8008,8013); (8016,8023);
  (8025,8025); (8027,8027); (8029,8029); (8031,8061); (8064,8116); (8118,8124);
  (8126,8126); (8130,8132); (8134,8140); (8144,8147); (8150,8155); (8160,8172);
  (8178,8180); (8182,8188); (8450,8450); (8455,8455); (8458,8467); (8469,8469);
  (8473,8477); (8484,8484); (8486,8486); (8488,8488); (8490,8493); (8495,8500);
  (8505,8505); (8508,8511); (8517,8521); (8526,8526); (8544,8575); (8579,8580);
  (9398,9449); (11264,11387); (11390,11492); (11499,11502); (11506,11507); (11520,11557);
  (11559,11559); (11565,11565); (42560,42605); (42624,42651); (42786,42863); (42865,42887);
  (42891,42894); (42896,42954); (42960,42961); (42963,42963); (42965,42969); (42997,42998);
  (43002,43002); (43824,43866); (43872,43880); (43888,43967); (64256,64262); (64275,64279);
  (65313,65338); (65345,65370); (66560,66639); (66736,66771); (66776,66811); (66928,66938);
  (66940,66954); (66956,66962); (66964,66965); (66967,66977); (66979,66993); (66995,67001);
  (67003,67004); (68736,68786); (68800,68850); (71840,71903); (93760,93823); (119808,119892);
  (119894,119964); (119966,119967); (119970,119970); (119973,119974); (119977,119980); (119982,119993);
  (119995,119995); (119997,120003); (120005,120069); (120071,120074); (120077,120084); (120086,120092);
  (120094,120121); (120123,120126); (120128,120132); (120134,120134); (120138,120144); (120146,120485);
  (120488,120512); (120514,120538); (120540,120570); (120572,120596); (120598,120628); (120630,120654);
  (120656,120686); (120688,120712); (120714,120744); (120746,120770); (120772,120779); (122624,122633);
  (122635,122654); (125184,125251); (127280,127305); (127312,127337); (127344,127369)
]%N.

End UCD.

Module PyStr.

Definition dot : N := 46.
Definition slash : N := 47.

(** [occurs c s]: the character [c] is one of the characters of [s]. *)
Fixpoint occurs (c : N) (s : str) : bool :=
  match s with
  | [] => false
  | a :: s' => (a =? c)%N || occurs c s'
  end.

(** [s.rfind(c)]: the highest index of [c] in [s], or -1. *)
Fixpoint rfind (s : str) (c : N) : Z :=
  match s with
  | [] => (-1)%Z
  | a :: s' =>
      let r := rfind s' c in
      if (0 <=? r)%Z then (r + 1)%Z
      else if (a =? c)%N then 0%Z else (-1)%Z
  end.

(** [s[i:]] for [0 <= i]. *)
Definition slice_from (i : nat) (s : str) : str := drop i s.

(** [s[:i]] for [0 <= i]. *)
Definition slice_to (i : nat) (s : str) : str := take i s.

(** The entry of a key in a table. *)
Fixpoint assoc {A} (c : N) (table : list (N * A)) : option A :=
  match table with
  | [] => None
  | (k, v) :: table' => if (k =? c)%N then Some v else assoc c table'
  end.

Definition in_ranges (c : N) (ranges : list (N * N)) : bool :=
  existsb (λ r : N * N, (r.1 <=? c)%N && (c <=? r.2)%N) ranges.

(** [_PyUnicode_ToLowerFull]: the lowercase form of one code point. *)
Definition lower_char (c : N) : str :=
  match assoc c UCD.lower_special with
  | Some cs => cs
  | None =>
      match assoc c UCD.lower_pairs with
      | Some d => [d]
      | None => [c]
      end
  end.

Definition is_case_ignorable (c : N) : bool :=
  in_ranges c UCD.case_ignorable_ranges.

(** Cased, for a code point that is not Case_Ignorable. *)
Definition is_cased (c : N) : bool := in_ranges c UCD.cased_ranges.

Fixpoint skip_case_ignorable (s : str) : str :=
  match s with
  | [] => []
  | c :: s' => if is_case_ignorable c then skip_case_ignorable s' else s
  end.

(** [handle_capital_sigma]: a capital sigma is in final position when the
    nearest character before it that is not Case_Ignorable is Cased and
    the nearest such character after it, if any, is not. [before] is the
    text before the sigma, nearest character first. *)
Definition final_sigma (before after : str) : bool :=
  match skip_case_ignorable before with
  | [] => false
  | c :: _ =>
      is_cased c &&
      match skip_case_ignorable after with
      | [] => true
      | d :: _ => negb (is_cased d)
      end
  end.

Definition capital_sigma : N := 931.
Definition final_small_sigma : N := 962.
Definition small_sigma : N := 963.

(** One step of [lower]: the characters that [c] turns into between the
    text [before] it (nearest character first) and the [rest]. *)
Definition lower_step (before : str) (c : N) (rest : str) : str :=
  if (c =? capital_sigma)%N
  then [if final_sigma before rest then final_small_sigma else small_sigma]
  else lower_char c.

(** [s.lower()], with what is before the rest of [s] at hand. *)
Fixpoint lower_from (before s : str) : str :=
  match s with
  | [] => []
  | c :: rest => lower_step before c rest ++ lower_from (c :: before) rest
  end.

(** [s.lower()]. *)
Definition lower (s : str) : str := lower_from [] s.

(** [c.isupper()] for one character. *)
Definition isupper_char (c : N) : bool := in_ranges c UCD.uppercase_ranges.

(** [s] has an uppercase letter among its characters. *)
Definition has_upper (s : str) : bool := existsb isupper_char s.

(** [c.lower() != c]: lowercasing changes the character. *)
Definition changed_by_lower (c : N) : bool := bool_decide (lower_char c ≠ [c]).

(** [s] has a character that lowercasing changes. *)
Definition has_lowerable (s : str) : bool := existsb changed_by_lower s.

(** [s2.startswith(s1)]. *)
Fixpoint startswith (s1 s2 : str) : bool :=
  match s1, s2 with
  | [], _ => true
  | _ :: _, [] => false
  | a :: s1', b :: s2' => (a =? b)%N && startswith s1' s2'
  end.

(** [s1 in s2] for strings: [s1] occurs in [s2] as a substring. *)
Fixpoint is_substring (s1 s2 : str) : bool :=
  startswith s1 s2 ||
  match s2 with
  | [] => false
  | _ :: s2' => is_substring s1 s2'
  end.

(** [s.split(sep)] for a separator of one character. *)
Fixpoint split (sep : N) (s : str) : list str :=
  match s with
  | [] => [[]]
  | c :: s' =>
      if (c =? sep)%N then [] :: split sep s'
      else match split sep s' with
           | [] => [[c]]
           | part :: parts => (c :: part) :: parts
           end
  end.

(** [sep.join(parts)]. *)
Fixpoint join (sep : N) (parts : list str) : str :=
  match parts with
  | [] => []
  | [part] => part
  | part :: parts' => part ++ sep :: join sep parts'
  end.

(** [s.lstrip(c)]. *)
Fixpoint lstrip (c : N) (s : str) : str :=
  match s with
  | [] => []
  | a :: s' => if (a =? c)%N then lstrip c s' else s
  end.

End PyStr.

(** ** [pathlib]: POSIX paths *)

Module PurePath.
Import PyStr.

(** [PurePath.suffix] of a final component [name]:
    [i = name.rfind('.')]; [name[i:]] if [0 < i < len(name) - 1],
    otherwise the empty string. *)
Definition suffix (name : str) : str :=
  let i := rfind name dot in
  if ((0 <? i) && (i <? Z.of_nat (length name) - 1))%Z
  then slice_from (Z.to_nat i) name
  else [].

(** [PurePath.stem]: [name[:i]] under the same test, otherwise [name]. *)
Definition stem (name : str) : str :=
  let i := rfind name dot in
  if ((0 <? i) && (i <? Z.of_nat (length name) - 1))%Z
  then slice_to (Z.to_nat i) name
  else name.

(** [_PosixFlavour.splitroot]: the root (one slash, or two when the text
    begins with exactly two) and the rest. *)
Definition splitroot (part : str) : str * str :=
  match part with
  | c :: _ =>
      if (c =? slash)%N
      then let stripped := lstrip slash part in
           if (length part - length stripped =? 2)%nat
           then ([slash; slash], stripped)
           else ([slash], stripped)
      else ([], part)
  | [] => ([], [])
  end.

(** The components [parse_parts] keeps: neither empty nor ".". *)
Definition kept_parts (rel : str) : list str :=
  filter (λ part, part ≠ [] ∧ part ≠ [dot]) (split slash rel).

(** [str(Path(raw))]. *)
Definition Path (raw : str) : str :=
  let '(root, rel) := splitroot raw in
  match root, kept_parts rel with
  | [], [] => [dot]
  | _, parts => root ++ join slash parts
  end.

End PurePath.

Import PyStr PurePath.

(** ** Exceptions, results and the state monad *)

(** Every exception the modelled library calls raise is an [OSError] (or a
    subclass of it), hence an [Exception]; [str_exn e] is [str(e)]. *)
Inductive exn : Type := OSError (strerror : str).

Definition str_exn (e : exn) : str := let 'OSError s := e in s.

(** How a call ends: it returns, it raises, or the model ran out of fuel. *)
Inductive res (A : Type) : Type :=
| Ret (a : A)
| Exc (e : exn)
| OutOfFuel.
Arguments Ret {A} a.
Arguments Exc {A} e.
Arguments OutOfFuel {A}.

(** A computation over a state [St]: the state after the call is kept in
    every case, as the effects done before a [raise] are. *)
Definition M (St A : Type) : Type := St → res A * St.

Section monad.
Context {St : Type}.

Definition ret {A} (a : A) : M St A := λ s, (Ret a, s).

Definition bind {A B} (m : M St A) (k : A → M St B) : M St B :=
  λ s, match m s with
       | (Ret a, s') => k a s'
       | (Exc e, s') => (Exc e, s')
       | (OutOfFuel, s') => (OutOfFuel, s')
       end.

(** [try: body / except Exception as e: handler e]. *)
Definition try_except {A} (body : M St A) (handler : exn → M St A) : M St A :=
  λ s, match body s with
       | (Exc e, s') => handler e s'
       | r => r
       end.

(** [for x in xs: body x]. *)
Fixpoint for_each {A} (xs : list A) (body : A → M St unit) : M St unit :=
  match xs with
  | [] => ret tt
  | x :: xs' => bind (body x) (λ _, for_each xs' body)
  end.

(** A block with one local variable, next to the state. *)
Definition with_local {L A} (init : L) (m : M (L * St) A) : M St A :=
  λ s, let '(r, (_, s')) := m (init, s) in (r, s').

Definition lift {L A} (m : M St A) : M (L * St) A :=
  λ ls, let '(r, s') := m ls.2 in (r, (ls.1, s')).

Definition get_local {L} : M (L * St) L := λ ls, (Ret ls.1, ls).

Definition set_local {L} (l : L) : M (L * St) unit := λ ls, (Ret tt, (l, ls.2)).

End monad.

Declare Scope py_scope.
Delimit Scope py_scope with py.
Notation "x <- m ;; k" := (bind m (λ x, k))
  (at level 100, m at next level, right associativity) : py_scope.
Notation "m ;; k" := (bind m (λ _, k))
  (at level 100, right associativity) : py_scope.
Local Open Scope py_scope.

(** ** The file system and the activity log *)

Inductive node : Type :=
| File (content : str)
| Directory
| Other.

Definition is_file (n : node) : bool :=
  match n with File _ => true | _ => false end.

(** The library calls that can raise, with their arguments. *)
Inductive syscall : Type :=
| SysMkdir (d : str)
| SysExists (d name : str)
| SysMove (src dst : str * str)
| SysScandir (d : str)
| SysIsFile (d name : str).

(** The world [manager.py] runs in: the directory entries, keyed by the
    resolved directory and the name; the existing directories, resolved;
    the resolution of a path text to the directory it names; the fault
    plan; and the module-level [log_buffer]. *)
Record State : Type := mkState {
  entries : gmap (list N * list N) node;
  dirs : gset (list N);
  realpath : list N → list N;
  fault : syscall → option exn;
  log_buffer : list (list N)
}.

Definition with_entries (m : gmap (list N * list N) node) (st : State) : State :=
  mkState m (dirs st) (realpath st) (fault st) (log_buffer st).

Definition with_dirs (ds : gset (list N)) (st : State) : State :=
  mkState (entries st) ds (realpath st) (fault st) (log_buffer st).

Definition with_log (l : list (list N)) (st : State) : State :=
  mkState (entries st) (dirs st) (realpath st) (fault st) l.

(** Where the system finds the path [d / name]. *)
Definition locate (st : State) (path : str * str) : list N * list N :=
  (realpath st path.1, path.2).

(** [log_buffer = deque(maxlen=50)]. *)
Definition maxlen : nat := 50.

(** [deque.append]: the item goes to the right end, and once the deque is
    longer than [maxlen] the leftmost item is dropped. *)
Definition deque_append {A} (dq : list A) (x : A) : list A :=
  let dq' := dq ++ [x] in
  if (maxlen <? length dq')%nat then tail dq' else dq'.

Definition log_append (line : str) : M State unit :=
  λ st, (Ret tt, with_log (deque_append (log_buffer st) line) st).

(** What [os.scandir] yields: the name, the path (the directory as it was
    given to [os.scandir], and the name) and the answer of [is_file()]. *)
Record DirEntry : Type := mkEntry {
  entry_dir : str;
  entry_name : str;
  entry_is_file : bool
}.

Definition entry_path (e : DirEntry) : str * str :=
  (entry_dir e, entry_name e).

(** The entries of the directory [dir], scanned as [d]. *)
Definition listing (d dir : str) (m : gmap (list N * list N) node) : list DirEntry :=
  omap (λ kv : (list N * list N) * node,
          if decide (kv.1.1 = dir)
          then Some (mkEntry d kv.1.2 (is_file kv.2))
          else None)
       (map_to_list m).

Definition ENOENT : exn := OSError (py "[Errno 2] No such file or directory").

(** [dest_dir.mkdir(exist_ok=True, parents=True)]: afterwards the
    directory exists. *)
Definition mkdir (d : str) : M State unit :=
  λ st, match fault st (SysMkdir d) with
        | Some e => (Exc e, st)
        | None => (Ret tt, with_dirs ({[realpath st d]} ∪ dirs st) st)
        end.

(** [(d / name).exists()]. *)
Definition path_exists (d name : str) : M State bool :=
  λ st, match fault st (SysExists d name) with
        | Some e => (Exc e, st)
        | None =>
            (Ret (bool_decide (is_Some (entries st !! locate st (d, name)))), st)
        end.

(** [shutil.move(src, dst)] of a file: the source must exist and so must
    the directory of the destination; the node then changes place (a file
    already at [dst] is replaced, as [os.rename] does). *)
Definition move (src dst : str * str) : M State unit :=
  λ st, match fault st (SysMove src dst) with
        | Some e => (Exc e, st)
        | None =>
            match entries st !! locate st src with
            | None => (Exc ENOENT, st)
            | Some n =>
                if bool_decide (realpath st dst.1 ∈ dirs st)
                then (Ret tt,
                      with_entries (<[locate st dst := n]>
                                      (delete (locate st src) (entries st))) st)
                else (Exc ENOENT, st)
            end
        end.

(** [os.scandir(d)]: the entries of [d], read when the directory is
    opened. (CPython reads them in blocks while the loop runs; whether an
    entry made in [d] during the loop shows up is left open by POSIX, so
    what is proved of whole scans that depends on the listing assumes
    that no rule sends files into [d].) *)
Definition scandir (d : str) : M State (list DirEntry) :=
  λ st, match fault st (SysScandir d) with
        | Some e => (Exc e, st)
        | None =>
            if bool_decide (realpath st d ∈ dirs st)
            then (Ret (listing d (realpath st d) (entries st)), st)
            else (Exc ENOENT, st)
        end.

(** [entry.is_file()]. *)
Definition DirEntry_is_file (entry : DirEntry) : M State bool :=
  λ st, match fault st (SysIsFile (entry_dir entry) (entry_name entry)) with
        | Some e => (Exc e, st)
        | None => (Ret (entry_is_file entry), st)
        end.

(** ** [OrganizerHandler] *)

(** [self.config], as [load_config] returns it: the two keys the handler
    reads, with texts for the source directory and for the destinations,
    as the editor of [main] saves them. *)
Record Config : Type := mkConfig {
  source_dir : str;
  extensions : gmap (list N) (list N)
}.

(** [f"{base}({counter}){ext}"]. *)
Definition new_name (base : str) (counter : nat) (ext : str) : str :=
  base ++ py "(" ++ py (pretty counter) ++ py ")" ++ ext.

(** The [while True] loop of [make_unique], from a given [counter]. *)
Fixpoint make_unique_loop (fuel : nat) (dest_dir base ext : str)
    (counter : nat) : M State str :=
  match fuel with
  | O => λ st, (OutOfFuel, st)
  | S fuel' =>
      found <- path_exists dest_dir (new_name base counter ext);;
      if negb found then ret (new_name base counter ext)
      else make_unique_loop fuel' dest_dir base ext (counter + 1)
  end.

Definition make_unique (fuel : nat) (dest_dir filename : str) : M State str :=
  let base := stem filename in
  let ext := suffix filename in
  make_unique_loop fuel dest_dir base ext 1.

(** [" → "]: a space, U+2192, a space. *)
Definition arrow : str := [32; 8594; 32]%N.

(** The two lines [move_file] writes to the log. *)
Definition moved_line (name dest : str) : str :=
  py "Moved: " ++ name ++ arrow ++ dest.

Definition error_line (name : str) (e : exn) : str :=
  py "Error moving " ++ name ++ py ": " ++ str_exn e.

(** The body of the [try] of [move_file]; the local variable is [name]. *)
Definition move_file_try (fuel : nat) (entry : DirEntry) (dest_dir : str)
  : M (str * State) unit :=
  lift (mkdir dest_dir);;
  name <- get_local;;
  found <- lift (path_exists dest_dir name);;
  (if found
   then (name' <- lift (make_unique fuel dest_dir name);; set_local name')
   else ret tt);;
  name <- get_local;;
  lift (move (entry_path entry) (dest_dir, name));;
  lift (log_append (moved_line name dest_dir)).

(** The [except Exception as e] of [move_file]. *)
Definition move_file_except (e : exn) : M (str * State) unit :=
  name <- get_local;;
  lift (log_append (error_line name e)).

Definition move_file (fuel : nat) (entry : DirEntry) (dest_dir name : str)
  : M State unit :=
  with_local name (try_except (move_file_try fuel entry dest_dir) move_file_except).

Definition process_file (fuel : nat) (config : Config) (entry : DirEntry)
  : M State unit :=
  let name := entry_name entry in
  let ext := lower (suffix name) in
  match extensions config !! ext with
  | Some raw => let dest := Path raw in move_file fuel entry dest name
  | None => ret tt
  end.

Definition on_modified (fuel : nat) (config : Config) (event_is_directory : bool)
  : M State unit :=
  if negb event_is_directory then ret tt
  else
    scanned <- scandir (source_dir config);;
    for_each scanned
      (λ entry, is_a_file <- DirEntry_is_file entry;;
                if is_a_file then process_file fuel config entry else ret tt).

(** ** Vocabulary of the statements *)

(** The names in a directory that holds [x] and its first [N - 1]
    numbered copies. *)
Definition occupants (x : str) (N : nat) : list str :=
  x :: ((λ k, new_name (stem x) k (suffix x)) <$> seq 1 (N - 1)).

(** The state once [mkdir] has returned. *)
Definition made_dir (dest : str) (st : State) : State :=
  with_dirs ({[realpath st dest]} ∪ dirs st) st.

(** The state after a successful [move_file]: the directory is there, the
    node sits under its new name, and the move is logged. *)
Definition moved_state (entry : DirEntry) (dest name' : str) (n : node)
    (st : State) : State :=
  with_log (deque_append (log_buffer st) (moved_line name' dest))
    (with_entries (<[locate st (dest, name') := n]>
                     (delete (locate st (entry_path entry)) (entries st)))
       (made_dir dest st)).

(** The entries after [move_file]: as before, because the [try] block
    raised; or with the node of [entry] under a name that was free. *)
Inductive relocated (entry : DirEntry) (dest : str) (st st' : State) : Prop :=
| relocated_failed :
    entries st' = entries st →
    (∃ c e, fault st c = Some e) ∨ entries st !! locate st (entry_path entry) = None →
    relocated entry dest st st'
| relocated_moved name' n :
    entries st !! locate st (entry_path entry) = Some n →
    entries st !! locate st (dest, name') = None →
    entries st' = <[locate st (dest, name') := n]>
                    (delete (locate st (entry_path entry)) (entries st)) →
    relocated entry dest st st'.

(** The rule a name falls under: [Path(self.config["extensions"][ext])],
    if any. *)
Definition rule_of (config : Config) (name : str) : option str :=
  Path <$> extensions config !! lower (suffix name).

(** The body of the loop of [on_modified]. *)
Definition scan_body (fuel : nat) (config : Config) (entry : DirEntry)
  : M State unit :=
  is_a_file <- DirEntry_is_file entry;;
  if is_a_file then process_file fuel config entry else ret tt.

(** An entry the scan will hand to [move_file]. *)
Definition routed (config : Config) (entry : DirEntry) : Prop :=
  entry_is_file entry = true ∧ is_Some (rule_of config (entry_name entry)).

(** No rule sends files into the directory that [d] names in [st]. *)
Definition no_rule_into (config : Config) (st : State) (d : str) : Prop :=
  ∀ ext raw, extensions config !! ext = Some raw →
             realpath st (Path raw) ≠ realpath st d.

(** A name a directory entry can have: not empty, not "." or "..", and
    without a slash or a NUL. *)
Definition valid_name (name : str) : Prop :=
  name ≠ [] ∧ name ≠ py "." ∧ name ≠ py ".."
  ∧ occurs slash name = false ∧ occurs 0%N name = false.

(** What the case tables are checked for: no character of a lowercase
    form is changed by lowercasing again, and a dot, a slash or a NUL is
    the lowercase form of itself only. *)
Definition settled (c d : N) : bool :=
  negb (changed_by_lower d)
  && negb (d =? capital_sigma)%N
  && bool_decide (d ∈ [dot; slash; 0%N] → d = c).

(** ** Worked scenarios *)

Definition no_fault : syscall → option exn := λ _, None.

(** [".."] components, resolved against the components before them. *)
Fixpoint collapse (done parts : list str) : list str :=
  match parts with
  | [] => reverse done
  | part :: parts' =>
      if decide (part = py "..") then collapse (tail done) parts'
      else collapse (part :: done) parts'
  end.

(** The directory a path names on a system without symbolic links whose
    working directory is the root: repeated slashes count once, "." is
    skipped and ".." goes one component up. *)
Definition no_links (path : str) : str :=
  slash :: join slash (collapse [] (kept_parts path)).

Definition png_rules : Config :=
  mkConfig (py "/src") {[ py ".png" := py "/dest/images" ]}.

(** A rule whose key was written with capitals in the configuration file. *)
Definition upper_png_rules : Config :=
  mkConfig (py "/src") {[ py ".PNG" := py "/dest/images" ]}.

(** A rule table with the empty string as a key. *)
Definition empty_key_rules : Config :=
  mkConfig (py "/src") {[ [] := py "/misc" ]}.

(** A rule that sends files into the source directory. *)
Definition loop_rules : Config :=
  mkConfig (py "/src") {[ py ".png" := py "/src" ]}.

(** The same, with the source directory written in other ways. *)
Definition loop_rules_slash : Config :=
  mkConfig (py "/src") {[ py ".png" := py "/src/" ]}.

Definition loop_rules_dotdot : Config :=
  mkConfig (py "/src") {[ py ".png" := py "/dest/../src" ]}.

(** U+03D2, GREEK UPSILON WITH HOOK SYMBOL: an uppercase letter
    ([isupper] is true) without a lowercase form. *)
Definition upsilon_hook : N := 978.

(** A rule whose key is a dot and that letter. *)
Definition upsilon_rules : Config :=
  mkConfig (py "/src") {[ py "." ++ [upsilon_hook] := py "/dest/greek" ]}.

Definition upsilon_file : State :=
  mkState {[ (py "/src", py "a." ++ [upsilon_hook]) := File (py "Y") ]}
          {[ py "/src" ]} no_links no_fault [].

Definition two_files : State :=
  mkState {[ (py "/src", py "a.png") := File (py "A");
             (py "/src", py "notes.txt") := File (py "N") ]}
          {[ py "/src" ]} no_links no_fault [].

Definition readme_only : State :=
  mkState {[ (py "/src", py "README") := File (py "R") ]}
          {[ py "/src" ]} no_links no_fault [].

Definition one_png : State :=
  mkState {[ (py "/src", py "a.png") := File (py "A") ]}
          {[ py "/src" ]} no_links no_fault [].

(** The same, next to a directory "/dest". *)
Definition one_png_beside_dest : State :=
  mkState {[ (py "/src", py "a.png") := File (py "A") ]}
          {[ py "/src"; py "/dest" ]} no_links no_fault [].

(** A destination that holds "report.pdf" and its first two copies. *)
Definition three_reports : State :=
  mkState {[ (py "/dest", py "report.pdf") := File (py "0");
             (py "/dest", py "report(1).pdf") := File (py "1");
             (py "/dest", py "report(2).pdf") := File (py "2");
             (py "/src", py "report.pdf") := File (py "3") ]}
          {[ py "/src"; py "/dest" ]} no_links no_fault [].

Definition ENOSPC : exn := OSError (py "[Errno 28] No space left on device").
Definition EACCES : exn := OSError (py "[Errno 13] Permission denied: '/src'").
Definition EROFS : exn := OSError (py "[Errno 30] Read-only file system").
Definition EIO : exn := OSError (py "[Errno 5] Input/output error").

(** Every move fails: the disk is full. *)
Definition disk_full : syscall → option exn :=
  λ c, match c with
       | SysMove _ _ => Some ENOSPC
       | _ => None
       end.

(** Directories cannot be made: the file system is read-only. *)
Definition read_only : syscall → option exn :=
  λ c, match c with
       | SysMkdir _ => Some EROFS
       | _ => None
       end.

(** The existence of a path cannot be tested. *)
Definition stat_fails : syscall → option exn :=
  λ c, match c with
       | SysExists _ _ => Some EIO
       | _ => None
       end.

(** The kind of an entry cannot be read. *)
Definition is_file_fails : syscall → option exn :=
  λ c, match c with
       | SysIsFile _ _ => Some EIO
       | _ => None
       end.

(** "a.png" is in the source and in the destination, and the disk is full. *)
Definition collision_full_disk : State :=
  mkState {[ (py "/src", py "a.png") := File (py "new");
             (py "/dest/images", py "a.png") := File (py "old") ]}
          {[ py "/src"; py "/dest/images" ]} no_links disk_full [].

(** "a.png" waits in the source, and the disk is full. *)
Definition png_full_disk : State :=
  mkState {[ (py "/src", py "a.png") := File (py "A") ]}
          {[ py "/src" ]} no_links disk_full [].

(** The destination directory is there and cannot be written to: the
    rename and the copy that [shutil.move] falls back on are both refused,
    and nothing is made or removed. *)
Definition dest_not_writable : syscall → option exn :=
  λ c, match c with
       | SysMove _ _ =>
           Some (OSError (py "[Errno 13] Permission denied: '/dest/images/a.png'"))
       | _ => None
       end.

Definition png_locked_dest : State :=
  mkState {[ (py "/src", py "a.png") := File (py "A") ]}
          {[ py "/src"; py "/dest/images" ]} no_links dest_not_writable [].

(** The source directory cannot be opened. *)
Definition unreadable : syscall → option exn :=
  λ c, match c with
       | SysScandir _ => Some EACCES
       | _ => None
       end.

Definition unreadable_source : State :=
  mkState {[ (py "/src", py "a.png") := File (py "A") ]}
          {[ py "/src" ]} no_links unreadable [].

(** ** The rule editor of [main] *)

(** [load_config] when the configuration file does not exist. *)
Definition default_config : Config := mkConfig [] ∅.

(** The truth value of a string in a condition: it is not empty. *)
Definition truthy (s : str) : bool :=
  match s with
  | [] => false
  | _ :: _ => true
  end.

(** What a button of [main] ends in: the configuration it saves, or the
    message of [st.error]. *)
Inductive ui_result : Type :=
| Saved (config : Config)
| UiError (message : str).

(** "Add New Rule": [config["extensions"][new_ext.lower()] = new_dest] when
    both fields are filled in. *)
Definition add_new_rule (new_ext new_dest : str) (config : Config) : ui_result :=
  if truthy new_ext && truthy new_dest
  then Saved (mkConfig (source_dir config)
                (<[lower new_ext := new_dest]> (extensions config)))
  else UiError (py "Both fields are required!").

(** "Remove ext": [del config["extensions"][ext]]; the button exists for
    the keys of the table only. *)
Definition remove_rule (ext : str) (config : Config) : Config :=
  mkConfig (source_dir config) (delete ext (extensions config)).

(** "Save Source Directory": [config["source_dir"] = source_dir]. *)
Definition save_source_directory (dir : str) (config : Config) : Config :=
  mkConfig dir (extensions config).

(** A session at the rule editor, from a configuration on. *)
Inductive ui_action : Type :=
| AddNewRule (new_ext new_dest : str)
| RemoveRule (ext : str)
| SaveSourceDirectory (dir : str).

Definition ui_step (config : Config) (a : ui_action) : Config :=
  match a with
  | AddNewRule new_ext new_dest =>
      match add_new_rule new_ext new_dest config with
      | Saved config' => config'
      | UiError _ => config
      end
  | RemoveRule ext => remove_rule ext config
  | SaveSourceDirectory dir => save_source_directory dir config
  end.

Definition ui_session (actions : list ui_action) : Config :=
  foldl ui_step default_config actions.

(** ** More vocabulary *)

(** A text [pathlib] can give as a suffix: a dot, then at least one
    character, none of them a dot. *)
Definition is_suffix_text (key : str) : bool :=
  match key with
  | c :: post => (c =? dot)%N && truthy post && negb (occurs dot post)
  | [] => false
  end.

(** [routed], as a test. *)
Definition routedb (config : Config) (entry : DirEntry) : bool :=
  entry_is_file entry && bool_decide (is_Some (rule_of config (entry_name entry))).

(** A line [move_file] can write. *)
Definition is_move_line (line : str) : Prop :=
  ∃ name, (∃ dest, line = moved_line name dest) ∨ (∃ e, line = error_line name e).

(** What the editor keeps true of a rule table. *)
Definition editor_made (config : Config) : Prop :=
  ∀ key dest, extensions config !! key = Some dest →
              key ≠ [] ∧ has_lowerable key = false ∧ dest ≠ [].

(** ** More scenarios *)

(** A destination where "a(1).png" is free but "a.png" and "a(2).png" are
    taken. *)
Definition gap_in_copies : State :=
  mkState {[ (py "/src", py "a.png") := File (py "new");
             (py "/dest/images", py "a.png") := File (py "old");
             (py "/dest/images", py "a(2).png") := File (py "older") ]}
          {[ py "/src"; py "/dest/images" ]} no_links no_fault [].

(** A source with a subdirectory and a file of each kind. *)
Definition mixed_source : State :=
  mkState {[ (py "/src", py "a.png") := File (py "A");
             (py "/src", py "b.PNG") := File (py "B");
             (py "/src", py "notes.txt") := File (py "N");
             (py "/src", py "old.png") := Directory;
             (py "/dest/images", py "a.png") := File (py "old") ]}
          {[ py "/src"; py "/src/old.png"; py "/dest/images" ]} no_links no_fault [].
(** * Properties *)

(** ** The model against CPython 3.11 *)

(** [str.lower], with the final sigma, the one character whose lowercase
    form has two characters, and letters without one. *)
Example lower_checks :
  lower [913; 931]%N = [945; 962]%N
  ∧ lower [913; 931; 913]%N = [945; 963; 945]%N
  ∧ lower [931]%N = [963]%N
  ∧ lower [913; 39; 931; 46]%N = [945; 39; 962; 46]%N
  ∧ lower [913; 931; 39; 913]%N = [945; 963; 39; 945]%N
  ∧ lower [97; 46; 931; 931]%N = [97; 46; 963; 962]%N
  ∧ lower [304; 120]%N = [105; 775; 120]%N
  ∧ lower (py "A.PNG") = py "a.png"
  ∧ lower [97; 46; 978]%N = [97; 46; 978]%N
  ∧ lower [453; 7838; 8551]%N = [454; 223; 8567]%N.
Proof. vm_compute. repeat split. Qed.

(** [str.isupper] on one character. *)
Example isupper_checks :
  isupper_char 65 = true ∧ isupper_char 97 = false ∧ isupper_char 978 = true
  ∧ isupper_char 453 = false ∧ isupper_char 8551 = true
  ∧ isupper_char 304 = true ∧ isupper_char 49 = false.
Proof. vm_compute. repeat split. Qed.

(** [str(Path(raw))]. *)
Example Path_checks :
  Path (py "/src/") = py "/src"
  ∧ Path (py "/src") = py "/src"
  ∧ Path (py "//src") = py "//src"
  ∧ Path (py "///src") = py "/src"
  ∧ Path (py "/dest/../src") = py "/dest/../src"
  ∧ Path (py "") = py "."
  ∧ Path (py ".") = py "."
  ∧ Path (py "./a") = py "a"
  ∧ Path (py "a//b/./c/") = py "a/b/c"
  ∧ Path (py "/") = py "/"
  ∧ Path (py "//") = py "//"
  ∧ Path (py "///") = py "/"
  ∧ Path (py "a/..") = py "a/.."
  ∧ Path (py "/./src") = py "/src".
Proof. vm_compute. repeat split. Qed.

(** [Path(name).suffix] and [Path(name).stem]. *)
Example suffix_checks :
  (suffix (py "a.png"), stem (py "a.png")) = (py ".png", py "a")
  ∧ (suffix (py ".bashrc"), stem (py ".bashrc")) = (py "", py ".bashrc")
  ∧ (suffix (py "a."), stem (py "a.")) = (py "", py "a.")
  ∧ (suffix (py "archive.tar.gz"), stem (py "archive.tar.gz"))
    = (py ".gz", py "archive.tar")
  ∧ (suffix (py "README"), stem (py "README")) = (py "", py "README")
  ∧ (suffix (py "a..b"), stem (py "a..b")) = (py ".b", py "a.")
  ∧ (suffix (py ".a.b"), stem (py ".a.b")) = (py ".b", py ".a").
Proof. vm_compute. repeat split. Qed.

(** Where a path is found on a system without symbolic links. *)
Example no_links_checks :
  no_links (py "/src/") = py "/src"
  ∧ no_links (py "/dest/../src") = py "/src"
  ∧ no_links (py "//src/./") = py "/src"
  ∧ no_links (py "/dest/images") = py "/dest/images"
  ∧ no_links (py "/..") = py "/".
Proof. vm_compute. repeat split. Qed.

(** ** Strings, suffixes and stems *)

Section strings.
Implicit Types (s pre post : list N) (c : N).

Lemma py_app (a b : string) : py (a +:+ b) = py a ++ py b.
Proof. induction a as [|x a IH]; [done|]. cbn [py]. simpl. by rewrite <-IH. Qed.

Lemma py_inj (a b : string) : py a = py b → a = b.
Proof.
  revert b. induction a as [|x a IH]; intros [|y b]; simpl; try done.
  intros [= Hxy Hab]. rewrite (IH _ Hab). f_equal.
  by rewrite <-(ascii_N_embedding x), <-(ascii_N_embedding y), Hxy.
Qed.

Lemma length_py (a : string) : length (py a) = String.length a.
Proof. induction a as [|x a IH]; simpl; [done|]. by rewrite IH. Qed.

Lemma rfind_bounds s c : (-1 ≤ rfind s c < Z.of_nat (length s))%Z.
Proof.
  induction s as [|a s IH]; simpl; [lia|].
  destruct (Z.leb_spec 0 (rfind s c)); [lia|].
  destruct (a =? c)%N; lia.
Qed.

Lemma rfind_absent s c : occurs c s = false → rfind s c = (-1)%Z.
Proof.
  induction s as [|a s IH]; simpl; [done|].
  intros [Ha Hs]%orb_false_iff. rewrite (IH Hs), Ha. done.
Qed.

Lemma rfind_present s c : occurs c s = true → (0 ≤ rfind s c)%Z.
Proof.
  induction s as [|a s IH]; simpl; [done|].
  destruct (Z.leb_spec 0 (rfind s c)) as [|Hlt]; [lia|].
  destruct (a =? c)%N; simpl; [lia|]. intros Hs. specialize (IH Hs). lia.
Qed.

Lemma occurs_app c s1 s2 : occurs c (s1 ++ s2) = occurs c s1 || occurs c s2.
Proof.
  induction s1 as [|a s1 IH]; simpl; [done|]. by rewrite IH, orb_assoc.
Qed.

Lemma occurs_elem_of c s : occurs c s = true ↔ c ∈ s.
Proof.
  induction s as [|a s IH]; simpl.
  - split; [done|]. by intros ?%elem_of_nil.
  - rewrite orb_true_iff, elem_of_cons, IH, N.eqb_eq.
    split; (intros [?|?]; [by left | by right]).
Qed.

(** The last occurrence: [c] followed by a text without [c]. *)
Lemma rfind_last pre post c :
  occurs c post = false →
  rfind (pre ++ c :: post) c = Z.of_nat (length pre).
Proof.
  intros Hpost. induction pre as [|a pre IH].
  - simpl. rewrite (rfind_absent _ _ Hpost), N.eqb_refl. done.
  - cbn [app rfind length]. rewrite IH.
    destruct (Z.leb_spec 0 (Z.of_nat (length pre))); lia.
Qed.

Lemma slice_from_app pre s : slice_from (length pre) (pre ++ s) = s.
Proof. unfold slice_from. by rewrite drop_app_length. Qed.

Lemma slice_to_app pre s : slice_to (length pre) (pre ++ s) = pre.
Proof. unfold slice_to. by rewrite take_app_length. Qed.

Lemma slice_to_from i s : slice_to i s ++ slice_from i s = s.
Proof. apply take_drop. Qed.

(** A name that [pathlib] splits: a non-empty stem, a dot, and a non-empty
    tail without a dot. *)
Lemma suffix_split pre post :
  pre ≠ [] → post ≠ [] → occurs dot post = false →
  suffix (pre ++ dot :: post) = dot :: post
  ∧ stem (pre ++ dot :: post) = pre.
Proof.
  intros Hpre Hpost Hdot. unfold suffix, stem.
  rewrite (rfind_last _ _ _ Hdot), length_app, Nat2Z.id.
  assert (0 < length pre)%nat by (destruct pre; simpl; [done | lia]).
  assert (0 < length post)%nat by (destruct post; simpl; [done | lia]).
  cbn [length].
  destruct (Z.ltb_spec 0 (Z.of_nat (length pre))); [|lia].
  destruct (Z.ltb_spec (Z.of_nat (length pre))
              (Z.of_nat (length pre + S (length post)) - 1)); [|lia].
  simpl. by rewrite slice_from_app, slice_to_app.
Qed.

(** No dot at all: no suffix. *)
Lemma suffix_no_dot s : occurs dot s = false → suffix s = [] ∧ stem s = s.
Proof.
  intros Hs. unfold suffix, stem. rewrite (rfind_absent _ _ Hs). done.
Qed.

(** The last dot is the first character (a "dotfile"): no suffix. *)
Lemma suffix_leading_dot post :
  occurs dot post = false → suffix (dot :: post) = [].
Proof.
  intros Hdot. unfold suffix.
  by rewrite (rfind_last [] post dot Hdot : rfind (dot :: post) dot = 0%Z).
Qed.

(** The last dot is the last character: no suffix. *)
Lemma suffix_trailing_dot pre : suffix (pre ++ [dot]) = [].
Proof.
  unfold suffix. rewrite (rfind_last pre [] dot eq_refl), length_app. simpl.
  destruct (Z.ltb_spec (Z.of_nat (length pre))
              (Z.of_nat (length pre + 1) - 1)); [lia|].
  by rewrite andb_false_r.
Qed.

Lemma stem_suffix s : stem s ++ suffix s = s.
Proof.
  unfold stem, suffix.
  destruct (_ && _); [apply slice_to_from | apply app_nil_r].
Qed.

End strings.

(** ** Lowercasing *)

Section lowercase.
Implicit Types (s before : list N) (c d : N).

Lemma assoc_elem_of {A} c (table : list (N * A)) v :
  assoc c table = Some v → (c, v) ∈ table.
Proof.
  induction table as [|[k w] table IH]; simpl; [done|].
  destruct (N.eqb_spec k c) as [->|_].
  - intros [= ->]. by left.
  - intros ?. right. auto.
Qed.

Lemma pairs_settled kv :
  kv ∈ UCD.lower_pairs → settled kv.1 kv.2 = true.
Proof.
  intros H%list_elem_of_In. revert kv H. apply forallb_forall.
  vm_compute. reflexivity.
Qed.

Lemma special_settled (kv : N * list N) :
  kv ∈ UCD.lower_special →
  kv.2 ≠ [] ∧ ∀ d, d ∈ kv.2 → settled kv.1 d = true.
Proof.
  intros [->|H%elem_of_nil]%elem_of_cons; [|done]. split; [done|].
  intros d Hd. repeat (apply elem_of_cons in Hd as [->|Hd]; [by vm_compute|]).
  by apply elem_of_nil in Hd.
Qed.

Lemma lower_char_settled c d :
  d ∈ lower_char c →
  lower_char c ≠ [] ∧ (settled c d = true ∨ d = c ∧ lower_char c = [c]).
Proof.
  unfold lower_char.
  destruct (assoc c UCD.lower_special) as [cs|] eqn:Hs.
  - apply assoc_elem_of, special_settled in Hs as [Hne Hall].
    intros Hd. split; [done|]. left. by apply Hall.
  - destruct (assoc c UCD.lower_pairs) as [d'|] eqn:Hp.
    + apply assoc_elem_of, pairs_settled in Hp.
      intros ->%list_elem_of_singleton. split; [done|]. by left.
    + intros ->%list_elem_of_singleton. split; [done|]. by right.
Qed.

Lemma lower_char_nonempty c : lower_char c ≠ [].
Proof.
  unfold lower_char.
  destruct (assoc c UCD.lower_special) as [cs|] eqn:Hs.
  - by apply assoc_elem_of, special_settled in Hs as [Hne _].
  - by destruct (assoc c UCD.lower_pairs).
Qed.

(** A character of [c.lower()] is not changed by lowercasing. *)
Lemma lower_char_fixed c d :
  d ∈ lower_char c → changed_by_lower d = false.
Proof.
  intros Hd. destruct (lower_char_settled c d Hd) as [_ [Hs|[-> Hc]]].
  - unfold settled in Hs. rewrite !andb_true_iff in Hs.
    destruct Hs as [[Hs _] _]. by apply negb_true_iff.
  - unfold changed_by_lower. by apply bool_decide_eq_false_2; intros [].
Qed.

(** Lowercasing makes a dot, a slash or a NUL only from itself. *)
Lemma lower_char_keeps c d :
  d ∈ lower_char c → d ∈ [dot; slash; 0%N] → d = c.
Proof.
  intros Hd Hin. destruct (lower_char_settled c d Hd) as [_ [Hs|[-> _]]]; [|done].
  unfold settled in Hs. rewrite !andb_true_iff in Hs.
  destruct Hs as [_ Hs]. by apply bool_decide_eq_true_1 in Hs; auto.
Qed.

(** ... and keeps them. *)
Lemma lower_char_of_kept c :
  c ∈ [dot; slash; 0%N] → lower_char c = [c].
Proof.
  intros Hc. repeat (apply elem_of_cons in Hc as [->|Hc]; [vm_compute; done|]).
  by apply elem_of_nil in Hc.
Qed.

Lemma lower_from_cons before c rest :
  lower_from before (c :: rest)
  = lower_step before c rest ++ lower_from (c :: before) rest.
Proof. done. Qed.

Lemma lower_step_fixed before c rest d :
  d ∈ lower_step before c rest → changed_by_lower d = false.
Proof.
  unfold lower_step. destruct (c =? capital_sigma)%N.
  - intros ->%list_elem_of_singleton. by destruct (final_sigma _ _).
  - apply lower_char_fixed.
Qed.

Lemma lower_step_nonempty before c rest : lower_step before c rest ≠ [].
Proof.
  unfold lower_step. destruct (c =? capital_sigma)%N; [done|].
  apply lower_char_nonempty.
Qed.

Lemma lower_step_keeps before c rest d :
  d ∈ lower_step before c rest → d ∈ [dot; slash; 0%N] → d = c.
Proof.
  unfold lower_step. destruct (c =? capital_sigma)%N.
  - intros ->%list_elem_of_singleton Hin.
    destruct (final_sigma _ _); exfalso;
      repeat (apply elem_of_cons in Hin as [Hin|Hin]; [done|]);
      by apply elem_of_nil in Hin.
  - apply lower_char_keeps.
Qed.

Lemma lower_step_of_kept before c rest :
  c ∈ [dot; slash; 0%N] → lower_step before c rest = [c].
Proof.
  intros Hc. unfold lower_step.
  destruct (N.eqb_spec c capital_sigma) as [->|_];
    [|by apply lower_char_of_kept].
  exfalso. repeat (apply elem_of_cons in Hc as [Hc|Hc]; [done|]).
  by apply elem_of_nil in Hc.
Qed.

Lemma has_lowerable_false s :
  has_lowerable s = false ↔ ∀ d, d ∈ s → changed_by_lower d = false.
Proof.
  unfold has_lowerable. induction s as [|c s IH]; simpl.
  - split; [|done]. by intros _ d ?%elem_of_nil.
  - rewrite orb_false_iff, IH. split.
    + intros [Hc Hs] d [->|Hd]%elem_of_cons; auto.
    + intros H. split; [apply H; by left|]. intros d Hd. apply H. by right.
Qed.

Lemma has_lowerable_app s1 s2 :
  has_lowerable (s1 ++ s2) = has_lowerable s1 || has_lowerable s2.
Proof. unfold has_lowerable. apply existsb_app. Qed.

(** No character of [s.lower()] is changed by lowercasing: the keys that
    [lower] makes are its fixed points. *)
Lemma has_lowerable_lower_from before s : has_lowerable (lower_from before s) = false.
Proof.
  revert before. induction s as [|c s IH]; intros before; [done|].
  rewrite lower_from_cons, has_lowerable_app, IH, orb_false_r.
  apply has_lowerable_false. intros d. apply lower_step_fixed.
Qed.

Lemma has_lowerable_lower s : has_lowerable (lower s) = false.
Proof. apply has_lowerable_lower_from. Qed.

(** A text without such a character is its own lowercase form. *)
Lemma lower_from_fixed before s :
  has_lowerable s = false → lower_from before s = s.
Proof.
  revert before. induction s as [|c s IH]; intros before; [done|].
  unfold has_lowerable. simpl. intros [Hc Hs]%orb_false_iff.
  change (lower_from before (c :: s))
    with (lower_step before c s ++ lower_from (c :: before) s).
  rewrite (IH _ Hs). unfold lower_step.
  apply bool_decide_eq_false in Hc. apply dec_stable in Hc.
  destruct (N.eqb_spec c capital_sigma) as [->|_]; [done|]. by rewrite Hc.
Qed.

Lemma lower_fixed s : has_lowerable s = false → lower s = s.
Proof. apply lower_from_fixed. Qed.

Lemma lower_from_empty_inv before s : lower_from before s = [] → s = [].
Proof.
  destruct s as [|c s]; [done|]. rewrite lower_from_cons.
  intros [H _]%app_eq_nil. by apply lower_step_nonempty in H.
Qed.

Lemma lower_empty_inv s : lower s = [] → s = [].
Proof. apply lower_from_empty_inv. Qed.

(** [lower] keeps the dots, the slashes and the NULs where they are and
    makes no new one. *)
Lemma occurs_lower_from k before s :
  k ∈ [dot; slash; 0%N] → occurs k (lower_from before s) = occurs k s.
Proof.
  intros Hk. revert before. induction s as [|c s IH]; intros before; [done|].
  rewrite lower_from_cons, occurs_app, IH. simpl. f_equal.
  destruct (N.eqb_spec c k) as [->|Hne].
  - rewrite lower_step_of_kept by done. simpl. by rewrite N.eqb_refl.
  - destruct (occurs k (lower_step before c s)) eqn:Hocc; [|done].
    apply occurs_elem_of in Hocc. by apply lower_step_keeps in Hocc.
Qed.

Lemma occurs_lower k s :
  k ∈ [dot; slash; 0%N] → occurs k (lower s) = occurs k s.
Proof. apply occurs_lower_from. Qed.

(** The lowercase form of a text that begins with a dot begins with it. *)
Lemma lower_from_dot before s :
  lower_from before (dot :: s) = dot :: lower_from (dot :: before) s.
Proof. done. Qed.

End lowercase.

(** ** The activity log *)

Section deque.
Context {A : Type}.
Implicit Types (dq es : list A).
Local Open Scope nat_scope.

Lemma deque_append_drop dq x :
  length dq ≤ maxlen →
  deque_append dq x = drop (length (dq ++ [x]) - maxlen) (dq ++ [x]).
Proof.
  intros Hlen. unfold deque_append. rewrite length_app. simpl.
  destruct (Nat.ltb_spec maxlen (length dq + 1)) as [Hfull|Hroom].
  - replace (length dq + 1 - maxlen)%nat with 1%nat by lia.
    by destruct dq.
  - replace (length dq + 1 - maxlen)%nat with 0%nat by lia. done.
Qed.

Lemma deque_append_length dq x :
  length dq ≤ maxlen → length (deque_append dq x) ≤ maxlen.
Proof.
  intros Hlen. rewrite deque_append_drop by done.
  rewrite length_drop, length_app. simpl. lia.
Qed.

Lemma last_deque_append dq x : last (deque_append dq x) = Some x.
Proof.
  unfold deque_append. destruct (maxlen <? length (dq ++ [x])) eqn:Hfull.
  - destruct dq as [|y dq]; [done|]. simpl. apply last_snoc.
  - apply last_snoc.
Qed.

Lemma foldl_deque_append dq es :
  length dq ≤ maxlen →
  foldl deque_append dq es
  = drop (length (dq ++ es) - maxlen) (dq ++ es).
Proof.
  revert dq. induction es as [|x es IH]; intros dq Hlen.
  - simpl. rewrite app_nil_r.
    replace (length dq - maxlen)%nat with 0%nat by lia. done.
  - cbn [foldl]. rewrite IH by by apply deque_append_length.
    rewrite deque_append_drop by done.
    set (k := (length (dq ++ [x]) - maxlen)%nat).
    assert (k ≤ length (dq ++ [x])) by lia.
    rewrite length_app, length_drop.
    rewrite <-(drop_app_le (dq ++ [x]) es k) by done.
    rewrite drop_drop, <-(assoc_L (++)). simpl.
    f_equal. subst k. rewrite !length_app. simpl. lia.
Qed.

End deque.
(** ** The collision resolver *)

Section resolver.
Implicit Types (st : State) (d base ext x : list N) (counter N : nat).
Local Open Scope nat_scope.

(** Two counters give two names. *)
Lemma new_name_inj base ext : Inj (=) (=) (λ counter, new_name base counter ext).
Proof.
  intros k1 k2 Heq. unfold new_name in Heq.
  apply app_inv_head in Heq. injection Heq as Heq.
  apply (app_inv_tail (py ")" ++ ext)) in Heq.
  by apply py_inj, (inj pretty) in Heq.
Qed.

Lemma new_name_length base counter ext :
  length (new_name base counter ext)
  = length base + length ext + 2 + String.length (pretty counter).
Proof. unfold new_name. rewrite !length_app, !length_py. simpl. lia. Qed.

(** A numbered name is never the name it was made from. *)
Lemma new_name_ne x counter : new_name (stem x) counter (suffix x) ≠ x.
Proof.
  intros Heq. apply (f_equal length) in Heq.
  rewrite new_name_length in Heq.
  pose proof (f_equal length (stem_suffix x)) as Hx.
  rewrite length_app in Hx. lia.
Qed.

(** [path_exists] and the resolver only read the state. *)
Lemma path_exists_state d x st r st' : path_exists d x st = (r, st') → st' = st.
Proof. unfold path_exists. destruct (fault st _); by intros [= _ <-]. Qed.

Lemma make_unique_loop_state fuel d base ext counter st r st' :
  make_unique_loop fuel d base ext counter st = (r, st') → st' = st.
Proof.
  revert counter. induction fuel as [|fuel IH]; intros counter; simpl.
  - by intros [= _ <-].
  - unfold bind.
    destruct (path_exists d (new_name base counter ext) st) as [[found|e|] s1] eqn:Hex;
      apply path_exists_state in Hex as ->; [|by intros [= _ <-]..].
    destruct found; simpl; [apply IH | by intros [= _ <-]].
Qed.

(** The loop walks over taken names and stops at the first free one. *)
Lemma make_unique_loop_first_free fuel d base ext counter N st :
  counter ≤ N → N - counter < fuel →
  (∀ k, counter ≤ k < N → path_exists d (new_name base k ext) st = (Ret true, st)) →
  path_exists d (new_name base N ext) st = (Ret false, st) →
  make_unique_loop fuel d base ext counter st = (Ret (new_name base N ext), st).
Proof.
  revert counter. induction fuel as [|fuel IH]; intros counter Hle Hfuel Htaken Hfree;
    [lia|].
  simpl. unfold bind. destruct (decide (counter = N)) as [->|Hne].
  - by rewrite Hfree.
  - rewrite Htaken by lia. simpl. apply IH; [lia | lia | | done].
    intros k Hk. apply Htaken. lia.
Qed.

(** Running dry means every name tried was taken. *)
Lemma make_unique_loop_out_of_fuel fuel d base ext counter st st' :
  make_unique_loop fuel d base ext counter st = (OutOfFuel, st') →
  ∀ k, counter ≤ k < counter + fuel →
       is_Some (entries st !! locate st (d, new_name base k ext)).
Proof.
  revert counter. induction fuel as [|fuel IH]; intros counter Hrun k Hk; [lia|].
  simpl in Hrun. unfold bind, path_exists in Hrun.
  destruct (fault st _); [done|].
  case_bool_decide as Hsome; simpl in Hrun; [|done].
  destruct (decide (k = counter)) as [->|]; [done|].
  apply (IH (counter + 1)); [done | lia].
Qed.

(** With more fuel than the file system has entries, the loop ends. *)
Lemma make_unique_loop_ends fuel d base ext counter st :
  size (entries st) < fuel →
  ∀ st', make_unique_loop fuel d base ext counter st ≠ (OutOfFuel, st').
Proof.
  intros Hfuel st' Hrun.
  pose proof (make_unique_loop_out_of_fuel _ _ _ _ _ _ _ Hrun) as Htaken.
  set (keys := (λ k, locate st (d, new_name base k ext)) <$> seq counter fuel).
  assert (NoDup keys) as Hnodup.
  { apply NoDup_fmap_2_strong; [|apply NoDup_seq].
    intros k1 k2 _ _ [= Heq]. by apply new_name_inj in Heq. }
  assert (keys ⊆+ (map_to_list (entries st)).*1) as Hsub.
  { apply NoDup_submseteq; [done|].
    intros key (k & -> & Hk%elem_of_seq)%list_elem_of_fmap.
    destruct (Htaken k Hk) as [n Hn].
    apply list_elem_of_fmap. exists (locate st (d, new_name base k ext), n).
    split; [done|]. by apply elem_of_map_to_list. }
  apply submseteq_length in Hsub.
  unfold keys in Hsub.
  rewrite !length_fmap, length_seq, length_map_to_list in Hsub. lia.
Qed.

(** What a call of [make_unique] comes to: a free name, or the exception
    of an existence test; the state is as before. *)
Lemma make_unique_run fuel d x st :
  size (entries st) < fuel →
  (∃ name', make_unique fuel d x st = (Ret name', st)
            ∧ path_exists d name' st = (Ret false, st))
  ∨ (∃ e c, fault st c = Some e ∧ make_unique fuel d x st = (Exc e, st)).
Proof.
  intros Hfuel. unfold make_unique.
  generalize 1. generalize (stem x) as base, (suffix x) as ext.
  intros base ext counter.
  pose proof (make_unique_loop_ends fuel d base ext counter st Hfuel) as Hends.
  clear Hfuel. revert counter Hends.
  induction fuel as [|fuel IH]; intros counter Hends; [by destruct (Hends st)|].
  simpl in *. unfold bind in *.
  destruct (path_exists d (new_name base counter ext) st) as [[found|e|] s1] eqn:Hex;
    pose proof (path_exists_state _ _ _ _ _ Hex) as ->.
  - destruct found; simpl in *; [by apply IH | left; eauto].
  - right. exists e, (SysExists d (new_name base counter ext)). split; [|done].
    unfold path_exists in Hex. destruct (fault st _); by simplify_eq.
  - by destruct (Hends st).
Qed.

End resolver.

(** C1. In a destination directory that holds exactly [x], [x(1)], ...,
    [x(N-1)] (the number goes between the stem and the suffix of [x]),
    [N >= 1], the incoming name [x] is found taken, so [move_file] goes
    through [make_unique], and [make_unique] returns exactly [x(N)]: the
    first numbered name, counting from 1, that does not exist. *)
Theorem make_unique_next_number (fuel : nat) (d x : list N) (N : nat) (st : State) :
  (1 ≤ N)%nat → (N ≤ fuel)%nat →
  (∀ name, path_exists d name st
           = (Ret (bool_decide (name ∈ occupants x N)), st)) →
  path_exists d x st = (Ret true, st)
  ∧ make_unique fuel d x st = (Ret (new_name (stem x) N (suffix x)), st).
Proof.
  intros HN Hfuel Hocc. split.
  - rewrite Hocc, bool_decide_eq_true_2; [done|]. unfold occupants. by left.
  - unfold make_unique. apply make_unique_loop_first_free; [lia | lia | |].
    + intros k Hk. rewrite Hocc, bool_decide_eq_true_2; [done|].
      unfold occupants. apply list_elem_of_further, list_elem_of_fmap.
      exists k. split; [done|]. apply elem_of_seq. lia.
    + rewrite Hocc, bool_decide_eq_false_2; [done|].
      unfold occupants. intros [Heq|Hin]%elem_of_cons.
      * by apply new_name_ne in Heq.
      * apply list_elem_of_fmap in Hin as (k & Heq & Hk%elem_of_seq).
        apply new_name_inj in Heq. lia.
Qed.
(** ** The mover *)

Section mover.
Implicit Types (st : State) (entry : DirEntry) (dest name : list N).
Local Open Scope nat_scope.

(** [move_file], statement by statement: each call either raises, and the
    handler logs the exception next to the value [name] has then, or hands
    its state on. *)
Lemma move_file_unfold fuel entry dest name st :
  move_file fuel entry dest name st
  = match mkdir dest st with
    | (Exc e, s1) => log_append (error_line name e) s1
    | (OutOfFuel, s1) => (OutOfFuel, s1)
    | (Ret _, s1) =>
        match path_exists dest name s1 with
        | (Exc e, s2) => log_append (error_line name e) s2
        | (OutOfFuel, s2) => (OutOfFuel, s2)
        | (Ret found, s2) =>
            match (if found then make_unique fuel dest name s2
                   else (Ret name, s2)) with
            | (Exc e, s3) => log_append (error_line name e) s3
            | (OutOfFuel, s3) => (OutOfFuel, s3)
            | (Ret name', s3) =>
                match move (entry_path entry) (dest, name') s3 with
                | (Exc e, s4) => log_append (error_line name' e) s4
                | (OutOfFuel, s4) => (OutOfFuel, s4)
                | (Ret _, s4) => log_append (moved_line name' dest) s4
                end
            end
        end
    end.
Proof.
  unfold move_file, with_local, try_except, move_file_try, move_file_except.
  unfold bind, lift, get_local, set_local, ret. simpl.
  destruct (mkdir dest st) as [[[]|e|] s1]; simpl; [|done..].
  destruct (path_exists dest name s1) as [[found|e|] s2]; simpl; [|done..].
  destruct found; simpl.
  - destruct (make_unique fuel dest name s2) as [[name'|e|] s3]; simpl; [|done..].
    by destruct (move (entry_path entry) (dest, name') s3) as [[[]|e|] s4].
  - by destruct (move (entry_path entry) (dest, name) s2) as [[[]|e|] s4].
Qed.

Lemma mkdir_cases dest st :
  (∃ e, fault st (SysMkdir dest) = Some e ∧ mkdir dest st = (Exc e, st))
  ∨ (fault st (SysMkdir dest) = None ∧ mkdir dest st = (Ret tt, made_dir dest st)).
Proof. unfold mkdir. destruct (fault st _) as [e|]; eauto. Qed.

Lemma path_exists_cases dest name st :
  (∃ e, fault st (SysExists dest name) = Some e
        ∧ path_exists dest name st = (Exc e, st))
  ∨ (fault st (SysExists dest name) = None
     ∧ path_exists dest name st
       = (Ret (bool_decide (is_Some (entries st !! locate st (dest, name)))), st)).
Proof. unfold path_exists. destruct (fault st _) as [e|]; eauto. Qed.

(** The move into a directory that has just been made, under a name that
    is free. *)
Lemma move_cases entry dest name' st :
  (∃ e, ((∃ c, fault st c = Some e)
         ∨ entries st !! locate st (entry_path entry) = None)
        ∧ move (entry_path entry) (dest, name') (made_dir dest st)
          = (Exc e, made_dir dest st))
  ∨ (∃ n, fault st (SysMove (entry_path entry) (dest, name')) = None
          ∧ entries st !! locate st (entry_path entry) = Some n
          ∧ move (entry_path entry) (dest, name') (made_dir dest st)
            = (Ret tt,
               with_entries (<[locate st (dest, name') := n]>
                               (delete (locate st (entry_path entry)) (entries st)))
                 (made_dir dest st))).
Proof.
  unfold move. simpl.
  destruct (fault st (SysMove (entry_path entry) (dest, name'))) as [e|] eqn:Hmove.
  { left. exists e. eauto. }
  change (locate (made_dir dest st)) with (locate st).
  destruct (entries st !! locate st (entry_path entry)) as [n|] eqn:Hsrc.
  - rewrite bool_decide_eq_true_2
      by (apply elem_of_union_l; by apply elem_of_singleton).
    right. exists n. done.
  - left. exists ENOENT. eauto.
Qed.

(** The two ways [move_file] ends, given fuel for the resolver: a call
    raised [e] while the local [name] held [name'], nothing has moved and
    the failure is logged; or the node is moved to a free name and the
    move is logged. *)
Lemma move_file_cases fuel entry dest name st :
  size (entries st) < fuel →
  (∃ name' e s1,
      (s1 = st ∨ s1 = made_dir dest st)
      ∧ ((∃ c, fault st c = Some e)
         ∨ entries st !! locate st (entry_path entry) = None)
      ∧ move_file fuel entry dest name st
        = (Ret tt, with_log (deque_append (log_buffer st) (error_line name' e)) s1))
  ∨ (∃ name' n,
      entries st !! locate st (entry_path entry) = Some n
      ∧ entries st !! locate st (dest, name') = None
      ∧ move_file fuel entry dest name st
        = (Ret tt, moved_state entry dest name' n st)).
Proof.
  intros Hfuel. rewrite move_file_unfold.
  destruct (mkdir_cases dest st) as [(e & Hc & ->)|[_ ->]].
  { left. exists name, e, st. split_and!; [by left | left; by eexists | done]. }
  destruct (path_exists_cases dest name (made_dir dest st))
    as [(e & Hc & ->)|[_ ->]].
  { left. exists name, e, (made_dir dest st). simpl in Hc.
    split_and!; [by right | left; by eexists | done]. }
  change (locate (made_dir dest st)) with (locate st).
  change (entries (made_dir dest st)) with (entries st).
  assert (∀ name',
    entries st !! locate st (dest, name') = None →
    (∃ name'' e s1,
        (s1 = st ∨ s1 = made_dir dest st)
        ∧ ((∃ c, fault st c = Some e)
           ∨ entries st !! locate st (entry_path entry) = None)
        ∧ match move (entry_path entry) (dest, name') (made_dir dest st) with
          | (Exc e, s4) => log_append (error_line name' e) s4
          | (OutOfFuel, s4) => (OutOfFuel, s4)
          | (Ret _, s4) => log_append (moved_line name' dest) s4
          end
          = (Ret tt, with_log (deque_append (log_buffer st) (error_line name'' e)) s1))
    ∨ (∃ name'' n,
        entries st !! locate st (entry_path entry) = Some n
        ∧ entries st !! locate st (dest, name'') = None
        ∧ match move (entry_path entry) (dest, name') (made_dir dest st) with
          | (Exc e, s4) => log_append (error_line name' e) s4
          | (OutOfFuel, s4) => (OutOfFuel, s4)
          | (Ret _, s4) => log_append (moved_line name' dest) s4
          end
          = (Ret tt, moved_state entry dest name'' n st))) as Hmove.
  { intros name' Hfree.
    destruct (move_cases entry dest name' st) as [(e & Hc & ->)|(n & _ & Hn & ->)].
    - left. exists name', e, (made_dir dest st). split_and!; [by right | done..].
    - right. by exists name', n. }
  case_bool_decide as Hfound.
  - destruct (make_unique_run fuel dest name (made_dir dest st) Hfuel)
      as [(name' & -> & Hfree)|(e & c & Hc & ->)].
    + apply Hmove. unfold path_exists in Hfree. simpl in Hfree.
      destruct (fault st (SysExists dest name')); [done|].
      injection Hfree as Hfree%bool_decide_eq_false_1.
      by apply eq_None_not_Some.
    + left. exists name, e, (made_dir dest st). simpl in Hc.
      split_and!; [by right | left; by eexists | done].
  - apply Hmove. by apply eq_None_not_Some.
Qed.

End mover.
(** ** What one move does to the file system *)

Section effects.
Implicit Types (st : State) (entry : DirEntry) (dest name : list N).
Implicit Types (config : Config).
Local Open Scope nat_scope.

Lemma locate_ext st st' path :
  realpath st' = realpath st → locate st' path = locate st path.
Proof. unfold locate. by intros ->. Qed.

Lemma no_rule_into_ext config st st' d :
  realpath st' = realpath st →
  no_rule_into config st' d ↔ no_rule_into config st d.
Proof. unfold no_rule_into. by intros ->. Qed.

Lemma move_file_effect fuel entry dest name st :
  size (entries st) < fuel →
  ∃ st', move_file fuel entry dest name st = (Ret tt, st')
         ∧ fault st' = fault st ∧ realpath st' = realpath st
         ∧ dirs st ⊆ dirs st'
         ∧ relocated entry dest st st'.
Proof.
  intros Hfuel.
  destruct (move_file_cases fuel entry dest name st Hfuel)
    as [(name' & e & s1 & Hs1 & Hcause & ->)|(name' & n & Hsrc & Hfree & ->)].
  - assert ((∃ c e', fault st c = Some e')
            ∨ entries st !! locate st (entry_path entry) = None) as Hcause'.
    { destruct Hcause as [[c Hc]|]; eauto. }
    eexists. split; [done|].
    assert (fault s1 = fault st ∧ realpath s1 = realpath st
            ∧ dirs st ⊆ dirs s1 ∧ entries s1 = entries st)
      as (Hf & Hr & Hd & He).
    { destruct Hs1; subst s1; simpl; split_and!; try done.
      apply union_subseteq_r. }
    simpl. split_and!; [done..|]. by apply relocated_failed.
  - eexists. split; [done|]. simpl.
    split_and!; [done | done | apply union_subseteq_r |].
    by eapply relocated_moved.
Qed.

Lemma relocated_size entry dest st st' :
  relocated entry dest st st' → size (entries st') = size (entries st).
Proof.
  intros [-> _|name' n Hsrc Hfree ->]; [done|].
  rewrite map_size_insert_None.
  - rewrite map_size_delete_Some by eauto.
    assert (size (entries st) ≠ 0); [|lia].
    apply map_size_ne_0_lookup. eauto.
  - destruct (decide (locate st (entry_path entry) = locate st (dest, name')))
      as [->|]; [apply lookup_delete_eq | by rewrite lookup_delete_ne].
Qed.

(** Frame: every other entry stays, with its node. *)
Lemma relocated_frame entry dest st st' key v :
  relocated entry dest st st' →
  key ≠ locate st (entry_path entry) →
  entries st !! key = Some v → entries st' !! key = Some v.
Proof.
  intros [-> _|name' n Hsrc Hfree ->] Hkey Hv; [done|].
  rewrite lookup_insert_ne by congruence.
  by rewrite lookup_delete_ne.
Qed.

(** A directory that is not the destination gains nothing. *)
Lemma relocated_shrink entry dest st st' d n v :
  relocated entry dest st st' →
  realpath st dest ≠ d →
  entries st' !! (d, n) = Some v → entries st !! (d, n) = Some v.
Proof.
  intros [-> _|name' n' Hsrc Hfree ->] Hd; [done|].
  rewrite lookup_insert_ne by (unfold locate; simpl; congruence).
  by intros [_ ?]%lookup_delete_Some.
Qed.

(** When no call fails, the entry is gone from where it was. *)
Lemma relocated_gone entry dest st st' :
  relocated entry dest st st' →
  (∀ c, fault st c = None) →
  realpath st dest ≠ realpath st (entry_dir entry) →
  entries st' !! locate st (entry_path entry) = None.
Proof.
  intros [-> Hcause|name' n Hsrc Hfree ->] Hnofault Hd.
  - destruct Hcause as [(c & e & Hc)|]; [|done]. by rewrite Hnofault in Hc.
  - rewrite lookup_insert_ne; [apply lookup_delete_eq|].
    unfold locate, entry_path. simpl. congruence.
Qed.

Lemma process_file_unmatched fuel config entry st :
  rule_of config (entry_name entry) = None →
  process_file fuel config entry st = (Ret tt, st).
Proof.
  unfold rule_of, process_file.
  by destruct (extensions config !! _).
Qed.

Lemma process_file_matched fuel config entry dest st :
  rule_of config (entry_name entry) = Some dest →
  process_file fuel config entry st
  = move_file fuel entry dest (entry_name entry) st.
Proof.
  unfold rule_of, process_file.
  destruct (extensions config !! _); simpl; [|done]. by intros [= <-].
Qed.

Lemma DirEntry_is_file_cases entry st :
  (∃ e, fault st (SysIsFile (entry_dir entry) (entry_name entry)) = Some e
        ∧ DirEntry_is_file entry st = (Exc e, st))
  ∨ (fault st (SysIsFile (entry_dir entry) (entry_name entry)) = None
     ∧ DirEntry_is_file entry st = (Ret (entry_is_file entry), st)).
Proof. unfold DirEntry_is_file. destruct (fault st _) as [e|]; eauto. Qed.

(** One turn of the loop of [on_modified], whatever fails. *)
Lemma scan_body_effect fuel config entry st :
  size (entries st) < fuel →
  ∃ r st', scan_body fuel config entry st = (r, st')
    ∧ r ≠ OutOfFuel
    ∧ fault st' = fault st ∧ realpath st' = realpath st
    ∧ dirs st ⊆ dirs st'
    ∧ size (entries st') = size (entries st)
    ∧ (¬ routed config entry → st' = st)
    ∧ (∀ key v, key ≠ locate st (entry_path entry) →
                entries st !! key = Some v → entries st' !! key = Some v)
    ∧ (∀ d n v, no_rule_into config st d →
                entries st' !! (realpath st d, n) = Some v →
                entries st !! (realpath st d, n) = Some v)
    ∧ ((∀ c, fault st c = None) →
       r = Ret tt
       ∧ (no_rule_into config st (entry_dir entry) → routed config entry →
          entries st' !! locate st (entry_path entry) = None)).
Proof.
  intros Hfuel. unfold scan_body, routed, bind.
  destruct (DirEntry_is_file_cases entry st) as [(e & Hc & ->)|[_ ->]].
  { exists (Exc e), st. split_and!; try done. intros Hnofault.
    by rewrite Hnofault in Hc. }
  destruct (entry_is_file entry) eqn:Hfile;
    [|exists (Ret tt), st; split_and!; try done; intros _; split; [done|];
      by intros _ [? ?]].
  destruct (rule_of config (entry_name entry)) as [dest|] eqn:Hrule.
  - rewrite (process_file_matched _ _ _ _ _ Hrule).
    destruct (move_file_effect fuel entry dest (entry_name entry) st Hfuel)
      as (st' & -> & Hfault & Hrp & Hdirs & Hrel).
    assert (∃ ext raw, extensions config !! ext = Some raw ∧ dest = Path raw)
      as (ext & raw & Hraw & ->).
    { unfold rule_of in Hrule.
      destruct (extensions config !! lower (suffix (entry_name entry)))
        as [raw|] eqn:Hraw; [|done].
      injection Hrule as <-. eauto. }
    exists (Ret tt), st'. split_and!; try done.
    + by eapply relocated_size.
    + intros Hidle. destruct Hidle. eauto.
    + intros key v. by eapply relocated_frame.
    + intros d n v Hd. eapply relocated_shrink; [done|]. by eapply Hd.
    + intros Hnofault. split; [done|]. intros Hd _.
      eapply relocated_gone; [done..|]. by eapply Hd.
  - rewrite (process_file_unmatched _ _ _ _ Hrule).
    exists (Ret tt), st. split_and!; try done. intros _. split; [done|].
    by intros _ [_ [? ?]].
Qed.

(** The loop of [on_modified] over any list of scanned entries: it ends,
    by an exception of [is_file] or by coming to the end of the list. *)
Lemma scan_loop_effect fuel config scanned st :
  size (entries st) < fuel →
  ∃ r st', for_each scanned (scan_body fuel config) st = (r, st')
    ∧ r ≠ OutOfFuel
    ∧ fault st' = fault st ∧ realpath st' = realpath st
    ∧ dirs st ⊆ dirs st'
    ∧ size (entries st') = size (entries st)
    ∧ ((∀ entry, entry ∈ scanned → ¬ routed config entry) → st' = st)
    ∧ (∀ key v, (∀ entry, entry ∈ scanned → routed config entry →
                          locate st (entry_path entry) ≠ key) →
                entries st !! key = Some v → entries st' !! key = Some v)
    ∧ (∀ d n v, no_rule_into config st d →
                entries st' !! (realpath st d, n) = Some v →
                entries st !! (realpath st d, n) = Some v)
    ∧ ((∀ c, fault st c = None) →
       r = Ret tt
       ∧ ∀ entry, entry ∈ scanned → no_rule_into config st (entry_dir entry) →
                  routed config entry →
                  entries st' !! locate st (entry_path entry) = None).
Proof.
  revert st. induction scanned as [|entry scanned IH]; intros st Hfuel.
  { exists (Ret tt), st. simpl. split_and!; try done. intros _. split; [done|].
    intros entry Hin. by inv Hin. }
  destruct (scan_body_effect fuel config entry st Hfuel)
    as (r1 & st1 & Hrun1 & Hr1 & Hfault1 & Hrp1 & Hdirs1 & Hsize1 & Hidle1
        & Hframe1 & Hshrink1 & Hgone1).
  destruct (IH st1) as
    (r2 & st2 & Hrun2 & Hr2 & Hfault2 & Hrp2 & Hdirs2 & Hsize2 & Hidle2
     & Hframe2 & Hshrink2 & Hgone2);
    [lia|].
  destruct r1 as [[]|e|]; [|clear IH Hrun2 Hr2 Hfault2 Hrp2 Hdirs2 Hsize2
                               Hidle2 Hframe2 Hshrink2 Hgone2|done].
  - exists r2, st2. split_and!.
    + simpl. unfold bind. by rewrite Hrun1.
    + done.
    + congruence.
    + congruence.
    + by etrans.
    + lia.
    + intros Hnone. rewrite Hidle2, Hidle1; [done|..].
      * apply Hnone. by left.
      * intros e He. apply Hnone. by right.
    + intros key v Hkey Hv. apply Hframe2.
      { intros e He. rewrite (locate_ext st st1) by done. apply Hkey. by right. }
      destruct (decide (routed config entry)) as [Hrouted|Hidle].
      * apply Hframe1; [|done]. intros ->. by eapply Hkey; [left|..].
      * by rewrite (Hidle1 Hidle).
    + intros d n v Hd Hv. eapply Hshrink1; [done|].
      rewrite <-Hrp1. eapply Hshrink2; [by apply (no_rule_into_ext config st st1)|].
      by rewrite Hrp1.
    + intros Hnofault. destruct (Hgone1 Hnofault) as [_ Hg1].
      destruct Hgone2 as [-> Hg2]; [intros c; by rewrite Hfault1|].
      split; [done|].
      intros e [->|He]%elem_of_cons Hd Hrouted.
      * destruct (entries st2 !! locate st (entry_path entry)) as [v|] eqn:Hv;
          [|done].
        unfold locate in Hv. simpl in Hv. rewrite <-Hrp1 in Hv.
        apply Hshrink2 in Hv; [|by apply (no_rule_into_ext config st st1)].
        rewrite Hrp1 in Hv.
        pose proof (Hg1 Hd Hrouted) as Hgone.
        unfold locate, entry_path in Hgone. simpl in Hgone. congruence.
      * rewrite <-(locate_ext st st1) by done.
        apply Hg2; [done | by apply (no_rule_into_ext config st st1) | done].
  - exists (Exc e), st1. split_and!; try done.
    + simpl. unfold bind. by rewrite Hrun1.
    + intros Hnone. apply Hidle1, Hnone. by left.
    + intros key v Hkey Hv.
      destruct (decide (routed config entry)) as [Hrouted|Hidle].
      * apply Hframe1; [|done]. intros ->. by eapply Hkey; [left|..].
      * by rewrite (Hidle1 Hidle).
    + intros Hnofault. by destruct (Hgone1 Hnofault).
Qed.

Lemma elem_of_listing (d dir : list N) (m : gmap (list N * list N) node) entry :
  entry ∈ listing d dir m
  ↔ ∃ n, m !! (dir, entry_name entry) = Some n
         ∧ entry = mkEntry d (entry_name entry) (is_file n).
Proof.
  unfold listing. rewrite list_elem_of_omap. split.
  - intros ([[d' name] n] & Hin%elem_of_map_to_list & Hsome). simpl in Hsome.
    case_decide as Hd; [|done]. injection Hsome as <-. subst d'. eauto.
  - intros (n & Hn & ->). exists ((dir, entry_name entry), n). simpl.
    split; [by apply elem_of_map_to_list|]. by rewrite decide_True.
Qed.

Lemma on_modified_scan fuel config st :
  on_modified fuel config true st
  = match scandir (source_dir config) st with
    | (Ret scanned, s1) => for_each scanned (scan_body fuel config) s1
    | (Exc e, s1) => (Exc e, s1)
    | (OutOfFuel, s1) => (OutOfFuel, s1)
    end.
Proof. done. Qed.

End effects.
(** ** The claims *)

(** *** Rule lookup *)

(** C5, as the code has it. The extension [process_file] looks up is the
    text from the last dot to the end, lowercased, when that dot is neither
    the first nor the last character of the name; a name whose last dot is
    its first character (".bashrc") or its last character has the empty
    extension. *)
Theorem extension_of_name :
  (∀ pre post,
      pre ≠ [] → post ≠ [] → occurs dot post = false →
      lower (suffix (pre ++ dot :: post)) = lower (dot :: post))
  ∧ (∀ post, occurs dot post = false → lower (suffix (dot :: post)) = [])
  ∧ (∀ pre, lower (suffix (pre ++ [dot])) = []).
Proof.
  split_and!.
  - intros pre post Hpre Hpost Hdot.
    by destruct (suffix_split pre post Hpre Hpost Hdot) as [-> _].
  - intros post Hdot. by rewrite suffix_leading_dot.
  - intros pre. by rewrite suffix_trailing_dot.
Qed.

Lemma extension_of_name_witness :
  lower (suffix (py "Photo" ++ dot :: py "PNG")) = lower (dot :: py "PNG")
  ∧ lower (suffix (dot :: py "bashrc")) = [].
Proof.
  split.
  - apply (proj1 extension_of_name (py "Photo") (py "PNG")); [done | done | reflexivity].
  - apply (proj1 (proj2 extension_of_name) (py "bashrc")). reflexivity.
Defined.

(** C5, as the claim has it, fails on a dotfile: ".bashrc" has a dot, the
    text from its last dot to the end is ".bashrc", and its extension is
    empty. *)
Lemma dotfile_extension_is_empty :
  occurs dot (py ".bashrc") = true
  ∧ lower (slice_from (Z.to_nat (rfind (py ".bashrc") dot)) (py ".bashrc"))
    = py ".bashrc"
  ∧ lower (suffix (py ".bashrc")) = []
  ∧ lower (suffix (py ".bashrc"))
    ≠ lower (slice_from (Z.to_nat (rfind (py ".bashrc") dot)) (py ".bashrc")).
Proof. vm_compute. split_and!; done. Qed.

(** C6, as the code has it. A name without a dot has the empty extension;
    it is routed exactly when the rule table has the empty string as a key:
    without that key [process_file] does nothing, with it the file goes to
    [move_file]. *)
Theorem no_dot_name_lookup (name : list N) :
  occurs dot name = false →
  lower (suffix name) = []
  ∧ (∀ fuel config entry st,
        entry_name entry = name → extensions config !! [] = None →
        process_file fuel config entry st = (Ret tt, st))
  ∧ (∀ fuel config entry st dest,
        entry_name entry = name → extensions config !! [] = Some dest →
        process_file fuel config entry st
        = move_file fuel entry (Path dest) name st).
Proof.
  intros Hdot. destruct (suffix_no_dot name Hdot) as [Hsuffix _].
  split_and!.
  - by rewrite Hsuffix.
  - intros fuel config entry st Hname Hkey. apply process_file_unmatched.
    unfold rule_of. rewrite Hname, Hsuffix.
    change (lower []) with (@nil N). by rewrite Hkey.
  - intros fuel config entry st dest Hname Hkey.
    rewrite (process_file_matched fuel config entry (Path dest) st);
      [by rewrite Hname|].
    unfold rule_of. rewrite Hname, Hsuffix.
    change (lower []) with (@nil N). by rewrite Hkey.
Qed.

Lemma no_dot_name_lookup_witness :
  lower (suffix (py "README")) = []
  ∧ process_file 10 png_rules (mkEntry (py "/src") (py "README") true) two_files
    = (Ret tt, two_files).
Proof.
  destruct (no_dot_name_lookup (py "README") eq_refl) as (Hext & Hidle & _).
  split; [exact Hext|]. apply Hidle; reflexivity.
Defined.

(** C6, as the claim has it, fails on a rule table with the empty key:
    "README" is moved. *)
Lemma readme_is_routed_by_empty_key :
  occurs dot (py "README") = false
  ∧ process_file 10 empty_key_rules (mkEntry (py "/src") (py "README") true)
      readme_only
    = (Ret tt,
       mkState {[ (py "/misc", py "README") := File (py "R") ]}
               {[ py "/misc"; py "/src" ]} no_links no_fault
               [py "Moved: README" ++ arrow ++ py "/misc"]).
Proof. vm_compute. done. Qed.

(** C10, as the claim has it, fails on an uppercase letter that has no
    lowercase form: U+03D2 is uppercase for [str.isupper], [str.lower]
    leaves it as it is, and a file named "a.ϒ" falls under the rule ".ϒ"
    and is moved. *)
Lemma upsilon_key_matches :
  isupper_char upsilon_hook = true
  ∧ has_upper (py "." ++ [upsilon_hook]) = true
  ∧ lower (suffix (py "a." ++ [upsilon_hook])) = py "." ++ [upsilon_hook]
  ∧ process_file 10 upsilon_rules
      (mkEntry (py "/src") (py "a." ++ [upsilon_hook]) true) upsilon_file
    = (Ret tt,
       mkState {[ (py "/dest/greek", py "a." ++ [upsilon_hook]) := File (py "Y") ]}
               {[ py "/dest/greek"; py "/src" ]} no_links no_fault
               [py "Moved: a." ++ [upsilon_hook] ++ arrow ++ py "/dest/greek"]).
Proof. vm_compute. done. Qed.

(** C10, as the code has it. A rule whose key has a character that
    [str.lower] changes (each of A to Z, and every other letter with a
    lowercase form of its own) is dead: the extension looked up is
    lowercased, so it is never that key, and [process_file] does for every
    entry what it does with the rule taken out. *)
Theorem changed_key_never_matches (config : Config) (key : list N) :
  has_lowerable key = true →
  (∀ name, lower (suffix name) ≠ key)
  ∧ (∀ fuel entry st,
        process_file fuel config entry st
        = process_file fuel
            (mkConfig (source_dir config) (delete key (extensions config)))
            entry st).
Proof.
  intros Hchanged.
  assert (∀ name, lower (suffix name) ≠ key) as Hne.
  { intros name <-. by rewrite has_lowerable_lower in Hchanged. }
  split; [done|]. intros fuel entry st. unfold process_file. simpl.
  by rewrite lookup_delete_ne.
Qed.

Lemma changed_key_never_matches_witness :
  lower (suffix (py "a.PNG")) ≠ py ".PNG"
  ∧ process_file 10 upper_png_rules (mkEntry (py "/src") (py "a.PNG") true) two_files
    = process_file 10
        (mkConfig (py "/src") (delete (py ".PNG") (extensions upper_png_rules)))
        (mkEntry (py "/src") (py "a.PNG") true) two_files.
Proof.
  destruct (changed_key_never_matches upper_png_rules (py ".PNG") eq_refl)
    as [Hne Hsame].
  split; [apply Hne | apply Hsame].
Defined.

(** The letters A to Z are among the characters that [str.lower] changes,
    and so are the capital sigma and the dotted capital I. *)
Example changed_letters :
  forallb changed_by_lower (py "ABCDEFGHIJKLMNOPQRSTUVWXYZ") = true
  ∧ changed_by_lower capital_sigma = true
  ∧ changed_by_lower 304 = true
  ∧ changed_by_lower upsilon_hook = false.
Proof. vm_compute. done. Qed.

(** *** The collision resolver *)

Lemma three_reports_occupants (name : list N) :
  path_exists (py "/dest") name three_reports
  = (Ret (bool_decide (name ∈ occupants (py "report.pdf") 3)), three_reports).
Proof.
  unfold path_exists. cbn [fault three_reports no_fault].
  do 2 f_equal. apply bool_decide_ext.
  replace (occupants (py "report.pdf") 3)
    with [py "report.pdf"; py "report(1).pdf"; py "report(2).pdf"]
    by (vm_compute; reflexivity).
  unfold locate, three_reports. cbn [realpath entries fst snd].
  change (no_links (py "/dest")) with (py "/dest").
  rewrite <-elem_of_dom, !dom_insert_L, dom_singleton_L.
  rewrite !elem_of_union, !elem_of_singleton.
  rewrite !elem_of_cons, elem_of_nil.
  split.
  - intros [H|[H|[H|H]]];
      pose proof (f_equal fst H) as H1; pose proof (f_equal snd H) as H2;
      cbn [fst snd] in H1, H2;
      first [by vm_compute in H1 | subst; auto].
  - intros [->|[->|[->|[]]]]; auto.
Qed.

Lemma make_unique_next_number_witness :
  path_exists (py "/dest") (py "report.pdf") three_reports = (Ret true, three_reports)
  ∧ make_unique 5 (py "/dest") (py "report.pdf") three_reports
    = (Ret (new_name (stem (py "report.pdf")) 3 (suffix (py "report.pdf"))),
       three_reports).
Proof.
  apply (make_unique_next_number 5 (py "/dest") (py "report.pdf") 3 three_reports);
    [lia | lia | exact three_reports_occupants].
Defined.
(** *** The mover *)

Section mover_claims.
Implicit Types (st : State) (entry : DirEntry) (dest name : list N).
Local Open Scope nat_scope.

Lemma mkdir_log dest st r s1 :
  mkdir dest st = (r, s1) →
  r ≠ OutOfFuel ∧ log_buffer s1 = log_buffer st ∧ entries s1 = entries st.
Proof. unfold mkdir. destruct (fault st _); by intros [= <- <-]. Qed.

Lemma path_exists_ends dest name st r s1 :
  path_exists dest name st = (r, s1) → r ≠ OutOfFuel ∧ s1 = st.
Proof. unfold path_exists. destruct (fault st _); by intros [= <- <-]. Qed.

Lemma make_unique_ends fuel dest name st r s1 :
  size (entries st) < fuel →
  make_unique fuel dest name st = (r, s1) → r ≠ OutOfFuel ∧ s1 = st.
Proof.
  intros Hfuel Hrun. unfold make_unique in Hrun.
  pose proof (make_unique_loop_state _ _ _ _ _ _ _ _ Hrun) as ->.
  split; [|done]. intros ->. by eapply make_unique_loop_ends.
Qed.

Lemma move_log src dst st r s1 :
  move src dst st = (r, s1) → r ≠ OutOfFuel ∧ log_buffer s1 = log_buffer st.
Proof.
  unfold move. destruct (fault st _); [by intros [= <- <-]|].
  destruct (entries st !! _); [|by intros [= <- <-]].
  case_bool_decide; by intros [= <- <-].
Qed.

End mover_claims.

(** C3. [move_file] returns, whatever fails inside its [try] block, and
    appends exactly one line to the log (the leftmost line goes when the
    log has 50 already). The line is the failure entry with the text of
    the exception when [mkdir] raises, when the existence test raises,
    when [make_unique] raises or when [move] raises, and the success
    entry when none of them does. The resolver needs no more fuel than
    the file system has entries. *)
Theorem move_file_never_raises (fuel : nat) (entry : DirEntry)
    (dest name : list N) (st : State) :
  (size (entries st) < fuel)%nat →
  ∃ st' line,
    move_file fuel entry dest name st = (Ret tt, st')
    ∧ log_buffer st'
      = (if (50 <? length (log_buffer st ++ [line]))%nat
         then tail (log_buffer st ++ [line])
         else log_buffer st ++ [line])
    ∧ (∀ e s1, mkdir dest st = (Exc e, s1) → line = error_line name e)
    ∧ (∀ s1, mkdir dest st = (Ret tt, s1) →
        (∀ e s2, path_exists dest name s1 = (Exc e, s2) →
                 line = error_line name e)
        ∧ (∀ s2, path_exists dest name s1 = (Ret false, s2) →
            (∀ e s3, move (entry_path entry) (dest, name) s2 = (Exc e, s3) →
                     line = error_line name e)
            ∧ (∀ s3, move (entry_path entry) (dest, name) s2 = (Ret tt, s3) →
                     line = moved_line name dest))
        ∧ (∀ s2, path_exists dest name s1 = (Ret true, s2) →
            (∀ e s3, make_unique fuel dest name s2 = (Exc e, s3) →
                     line = error_line name e)
            ∧ (∀ name' s3, make_unique fuel dest name s2 = (Ret name', s3) →
                (∀ e s4, move (entry_path entry) (dest, name') s3 = (Exc e, s4) →
                         line = error_line name' e)
                ∧ (∀ s4, move (entry_path entry) (dest, name') s3 = (Ret tt, s4) →
                         line = moved_line name' dest)))).
Proof.
  intros Hfuel. rewrite move_file_unfold.
  destruct (mkdir dest st) as [r1 s1] eqn:Hmk.
  destruct (mkdir_log _ _ _ _ Hmk) as (Hr1 & Hlog1 & Hent1).
  destruct r1 as [[]|e1|]; [| |done].
  2:{ exists (with_log (deque_append (log_buffer s1) (error_line name e1)) s1),
        (error_line name e1).
      split; [done|]. split; [by rewrite <-Hlog1|].
      split; [by intros ? ? [= <- _]|]. by intros ? [=]. }
  destruct (path_exists dest name s1) as [r2 s2] eqn:Hex.
  destruct (path_exists_ends _ _ _ _ _ Hex) as [Hr2 ->].
  destruct r2 as [found|e2|]; [| |done].
  2:{ exists (with_log (deque_append (log_buffer s1) (error_line name e2)) s1),
        (error_line name e2).
      split; [done|]. split; [by rewrite <-Hlog1|].
      split; [by intros ? ? [=]|]. intros ? [= <-].
      rewrite Hex. split; [by intros ? ? [= <- _]|].
      split; by intros ? [=]. }
  assert (∀ name',
    ∃ st' line,
      match move (entry_path entry) (dest, name') s1 with
      | (Exc e, s4) => log_append (error_line name' e) s4
      | (OutOfFuel, s4) => (OutOfFuel, s4)
      | (Ret _, s4) => log_append (moved_line name' dest) s4
      end = (Ret tt, st')
      ∧ log_buffer st'
        = (if (50 <? length (log_buffer st ++ [line]))%nat
           then tail (log_buffer st ++ [line])
           else log_buffer st ++ [line])
      ∧ (∀ e s4, move (entry_path entry) (dest, name') s1 = (Exc e, s4) →
                 line = error_line name' e)
      ∧ (∀ s4, move (entry_path entry) (dest, name') s1 = (Ret tt, s4) →
               line = moved_line name' dest)) as Hmove.
  { intros name'.
    destruct (move (entry_path entry) (dest, name') s1) as [r4 s4] eqn:Hmv.
    destruct (move_log _ _ _ _ _ Hmv) as [Hr4 Hlog4].
    destruct r4 as [[]|e4|]; [| |done].
    - exists (with_log (deque_append (log_buffer s4) (moved_line name' dest)) s4),
        (moved_line name' dest).
      split; [done|]. split; [by rewrite <-Hlog1, <-Hlog4|].
      split; [by intros ? ? [=]|done].
    - exists (with_log (deque_append (log_buffer s4) (error_line name' e4)) s4),
        (error_line name' e4).
      split; [done|]. split; [by rewrite <-Hlog1, <-Hlog4|].
      split; [by intros ? ? [= <- _]|by intros ? [=]]. }
  destruct found.
  - destruct (make_unique fuel dest name s1) as [r3 s3] eqn:Hmu.
    destruct (make_unique_ends _ _ _ _ _ _ ltac:(by rewrite Hent1) Hmu)
      as [Hr3 ->].
    destruct r3 as [name'|e3|]; [| |done].
    + destruct (Hmove name') as (st' & line & Hrun & Hlog & Hfail & Hok).
      exists st', line. split; [done|]. split; [done|].
      split; [by intros ? ? [=]|]. intros ? [= <-]. rewrite Hex.
      split; [by intros ? ? [=]|]. split; [by intros ? [=]|].
      intros ? [= <-]. rewrite Hmu. split; [by intros ? ? [=]|].
      intros ? ? [= <- <-]. done.
    + exists (with_log (deque_append (log_buffer s1) (error_line name e3)) s1),
        (error_line name e3).
      split; [done|]. split; [by rewrite <-Hlog1|].
      split; [by intros ? ? [=]|]. intros ? [= <-]. rewrite Hex.
      split; [by intros ? ? [=]|]. split; [by intros ? [=]|].
      intros ? [= <-]. rewrite Hmu. split; [by intros ? ? [= <- _]|].
      by intros ? ? [=].
  - destruct (Hmove name) as (st' & line & Hrun & Hlog & Hfail & Hok).
    exists st', line. split; [done|]. split; [done|].
    split; [by intros ? ? [=]|]. intros ? [= <-]. rewrite Hex.
    split; [by intros ? ? [=]|]. split; [|by intros ? [=]].
    intros ? [= <-]. done.
Qed.
Lemma move_file_never_raises_witness :
  ∃ st' line,
    move_file 10 (mkEntry (py "/src") (py "a.png") true) (py "/dest/images")
      (py "a.png") collision_full_disk = (Ret tt, st')
    ∧ log_buffer st' = [line]
    ∧ line = error_line (py "a(1).png") ENOSPC.
Proof.
  destruct (move_file_never_raises 10 (mkEntry (py "/src") (py "a.png") true)
              (py "/dest/images") (py "a.png") collision_full_disk)
    as (st' & line & Hrun & Hlog & _ & Hsteps); [vm_compute; lia|].
  exists st', line. split; [exact Hrun|]. split; [exact Hlog|].
  edestruct Hsteps as (_ & _ & Hcollision); [reflexivity|].
  edestruct Hcollision as [_ Hrenamed]; [reflexivity|].
  edestruct (Hrenamed (py "a(1).png")) as [Hfail _]; [reflexivity|].
  eapply Hfail. reflexivity.
Defined.

(** The failure entry of each step: [mkdir] on a read-only file system,
    the existence test on a failing disk, and the move on a full disk. *)
Example failure_entries :
  log_buffer
    (move_file 10 (mkEntry (py "/src") (py "a.png") true) (py "/dest/images")
       (py "a.png")
       (mkState {[ (py "/src", py "a.png") := File (py "A") ]} {[ py "/src" ]}
                no_links read_only [])).2
  = [py "Error moving a.png: [Errno 30] Read-only file system"]
  ∧ log_buffer
      (move_file 10 (mkEntry (py "/src") (py "a.png") true) (py "/dest/images")
         (py "a.png")
         (mkState {[ (py "/src", py "a.png") := File (py "A") ]} {[ py "/src" ]}
                  no_links stat_fails [])).2
    = [py "Error moving a.png: [Errno 5] Input/output error"]
  ∧ log_buffer
      (move_file 10 (mkEntry (py "/src") (py "a.png") true) (py "/dest/images")
         (py "a.png") png_full_disk).2
    = [py "Error moving a.png: [Errno 28] No space left on device"]
  ∧ log_buffer
      (move_file 10 (mkEntry (py "/src") (py "gone.png") true) (py "/dest/images")
         (py "gone.png") one_png).2
    = [py "Error moving gone.png: [Errno 2] No such file or directory"]
  ∧ log_buffer
      (move_file 10 (mkEntry (py "/src") (py "a.png") true) (py "/dest/images")
         (py "a.png") one_png).2
    = [py "Moved: a.png" ++ arrow ++ py "/dest/images"].
Proof. vm_compute. split_and!; reflexivity. Qed.

(** C4 on the code. The incoming "a.png" collides, the resolver renames it
    to "a(1).png", and then the move fails: the failure entry names
    "a(1).png", and the original name "a.png" does not occur in it. *)
Theorem failure_entry_after_rename :
  move_file 10 (mkEntry (py "/src") (py "a.png") true) (py "/dest/images")
    (py "a.png") collision_full_disk
  = (Ret tt,
     with_log [py "Error moving a(1).png: [Errno 28] No space left on device"]
       collision_full_disk)
  ∧ is_substring (py "a.png")
      (py "Error moving a(1).png: [Errno 28] No space left on device") = false.
Proof. vm_compute. done. Qed.

(** *** The scanner *)

(** C2 on the code. The source directory cannot be read: the exception of
    [os.scandir] leaves [on_modified], and the log is as it was. *)
Theorem scan_failure_propagates :
  on_modified 10 png_rules true unreadable_source
  = (Exc (OSError (py "[Errno 13] Permission denied: '/src'")), unreadable_source)
  ∧ log_buffer unreadable_source = [].
Proof. vm_compute. done. Qed.

(** An exception of [os.scandir] always leaves [on_modified], with the
    state as it was. *)
Lemma on_modified_raises fuel config st e s1 :
  scandir (source_dir config) st = (Exc e, s1) →
  on_modified fuel config true st = (Exc e, st).
Proof.
  intros Hscan. rewrite on_modified_scan.
  unfold scandir in *. destruct (fault st _); [by simplify_eq|].
  case_bool_decide; by simplify_eq.
Qed.

(** C7. A name whose extension is not a key of the rule table: handing it
    to [process_file] changes nothing (no entry moves, no line is logged)
    and raises nothing; and a whole scan leaves the file where it is, with
    its content. *)
Theorem unmatched_file_untouched (fuel : nat) (config : Config) (name : list N) :
  extensions config !! lower (suffix name) = None →
  (∀ entry st,
      entry_name entry = name →
      process_file fuel config entry st = (Ret tt, st))
  ∧ (∀ event_is_directory st r st' content,
        (size (entries st) < fuel)%nat →
        entries st !! locate st (source_dir config, name) = Some (File content) →
        on_modified fuel config event_is_directory st = (r, st') →
        r ≠ OutOfFuel
        ∧ entries st' !! locate st (source_dir config, name) = Some (File content)).
Proof.
  intros Hrule. split.
  - intros entry st Hname. apply process_file_unmatched.
    unfold rule_of. by rewrite Hname, Hrule.
  - intros [] st r st' content Hfuel Hfile; [|by intros [= <- <-]].
    rewrite on_modified_scan. unfold scandir.
    destruct (fault st _); [by intros [= <- <-]|].
    case_bool_decide; [|by intros [= <- <-]].
    destruct (scan_loop_effect fuel config
                (listing (source_dir config) (realpath st (source_dir config))
                   (entries st)) st Hfuel)
      as (r2 & st2 & -> & Hr2 & _ & _ & _ & _ & _ & Hframe & _).
    intros [= <- <-]. split; [done|]. apply Hframe; [|done].
    intros entry (n & _ & ->)%elem_of_listing [_ [dest Hdest]] [= Hname].
    unfold rule_of in Hdest. simpl in *. rewrite Hname, Hrule in Hdest. done.
Qed.

Lemma unmatched_file_untouched_witness :
  process_file 10 png_rules (mkEntry (py "/src") (py "notes.txt") true) two_files
  = (Ret tt, two_files)
  ∧ entries (on_modified 10 png_rules true two_files).2
      !! (py "/src", py "notes.txt")
    = Some (File (py "N")).
Proof.
  destruct (unmatched_file_untouched 10 png_rules (py "notes.txt") eq_refl)
    as [Hidle Hframe].
  split; [by apply Hidle|].
  eapply (Hframe true two_files); [vm_compute; lia | reflexivity |].
  apply surjective_pairing.
Defined.

(** C9, as the code has it. When no library call fails and no rule sends
    files into the source directory itself (whatever way the rule writes
    that directory), a second scan right after a scan does nothing: it
    ends as the first did and leaves the file system and the log as the
    first scan left them. *)
Theorem rescan_does_nothing (fuel : nat) (config : Config)
    (event_is_directory : bool) (st st1 : State) (r : res unit) :
  (∀ c, fault st c = None) →
  no_rule_into config st (source_dir config) →
  (size (entries st) < fuel)%nat →
  on_modified fuel config event_is_directory st = (r, st1) →
  r ≠ OutOfFuel
  ∧ on_modified fuel config event_is_directory st1 = (r, st1).
Proof.
  intros Hnofault Hrules Hfuel.
  destruct event_is_directory; [|by intros [= <- <-]].
  rewrite !on_modified_scan. unfold scandir. rewrite Hnofault.
  case_bool_decide as Hdir;
    [|intros [= <- <-]; by rewrite Hnofault, bool_decide_eq_false_2].
  set (src := source_dir config) in *.
  destruct (scan_loop_effect fuel config
              (listing src (realpath st src) (entries st)) st Hfuel)
    as (r' & st' & -> & _ & Hfault & Hrp & Hdirs & Hsize & _ & _ & Hshrink & Hgone).
  destruct (Hgone Hnofault) as [-> Hgone'].
  intros [= <- <-]. split; [done|]. rewrite Hfault, Hnofault, Hrp.
  rewrite bool_decide_eq_true_2 by by apply Hdirs.
  destruct (scan_loop_effect fuel config
              (listing src (realpath st src) (entries st')) st')
    as (r2 & st2 & -> & _ & Hfault2 & _ & _ & _ & Hidle & _ & _ & Hgone2); [lia|].
  destruct Hgone2 as [-> _]; [intros c; by rewrite Hfault|].
  rewrite Hidle; [done|].
  intros entry (n & Hn & Hentry)%elem_of_listing Hrouted.
  assert (entry_dir entry = src) as Hd by by rewrite Hentry.
  assert (entry ∈ listing src (realpath st src) (entries st)) as Hin.
  { apply elem_of_listing. exists n. split; [|done].
    by apply (Hshrink _ _ _ Hrules). }
  pose proof (Hgone' entry Hin) as Hg. rewrite Hd in Hg.
  specialize (Hg Hrules Hrouted). unfold locate, entry_path in Hg.
  rewrite Hd in Hg. simpl in Hg. congruence.
Qed.

Lemma png_rules_leave_source st :
  realpath st = no_links → no_rule_into png_rules st (source_dir png_rules).
Proof.
  intros Hrp ext raw Hrule. cbn [png_rules extensions] in Hrule.
  apply lookup_singleton_Some in Hrule as [_ <-]. rewrite Hrp.
  by vm_compute.
Qed.

Lemma rescan_does_nothing_witness :
  on_modified 10 png_rules true
    (mkState {[ (py "/dest/images", py "a.png") := File (py "A");
                (py "/src", py "notes.txt") := File (py "N") ]}
             {[ py "/dest/images"; py "/src" ]} no_links no_fault
             [py "Moved: a.png" ++ arrow ++ py "/dest/images"])
  = (Ret tt,
     mkState {[ (py "/dest/images", py "a.png") := File (py "A");
                (py "/src", py "notes.txt") := File (py "N") ]}
             {[ py "/dest/images"; py "/src" ]} no_links no_fault
             [py "Moved: a.png" ++ arrow ++ py "/dest/images"]).
Proof.
  apply (rescan_does_nothing 10 png_rules true two_files).
  - reflexivity.
  - by apply png_rules_leave_source.
  - vm_compute. lia.
  - vm_compute. reflexivity.
Defined.

(** C9, as the claim has it, fails when a move keeps failing: the file
    stays in the source, so the second scan tries again and logs the
    failure a second time. *)
Lemma rescan_logs_failure_again :
  on_modified 10 png_rules true png_locked_dest
  = (Ret tt,
     with_log
       [py "Error moving a.png: [Errno 13] Permission denied: '/dest/images/a.png'"]
       png_locked_dest)
  ∧ on_modified 10 png_rules true
      (with_log
         [py "Error moving a.png: [Errno 13] Permission denied: '/dest/images/a.png'"]
         png_locked_dest)
    = (Ret tt,
       with_log
         [py "Error moving a.png: [Errno 13] Permission denied: '/dest/images/a.png'";
          py "Error moving a.png: [Errno 13] Permission denied: '/dest/images/a.png'"]
         png_locked_dest)
  ∧ entries png_locked_dest !! (py "/src", py "a.png") = Some (File (py "A")).
Proof. vm_compute. done. Qed.

(** It also fails, with no call failing, when a rule sends files into the
    source directory: each scan finds the file it has just renamed and
    renames it again. *)
Example rescan_renames_again :
  on_modified 10 loop_rules true one_png
  = (Ret tt,
     mkState {[ (py "/src", py "a(1).png") := File (py "A") ]} {[ py "/src" ]}
       no_links no_fault
       [py "Moved: a(1).png" ++ arrow ++ py "/src"])
  ∧ on_modified 10 loop_rules true
      (mkState {[ (py "/src", py "a(1).png") := File (py "A") ]} {[ py "/src" ]}
         no_links no_fault
         [py "Moved: a(1).png" ++ arrow ++ py "/src"])
    = (Ret tt,
       mkState {[ (py "/src", py "a(1)(1).png") := File (py "A") ]}
         {[ py "/src" ]} no_links no_fault
         [py "Moved: a(1).png" ++ arrow ++ py "/src";
          py "Moved: a(1)(1).png" ++ arrow ++ py "/src"]).
Proof. vm_compute. done. Qed.

(** The same happens when the rule writes the source directory "/src" as
    "/src/" or as "/dest/../src": the texts differ, the directory is the
    same, and the rule does send files into the source directory. *)
Example rescan_renames_again_other_spelling :
  ¬ no_rule_into loop_rules_slash one_png (source_dir loop_rules_slash)
  ∧ ¬ no_rule_into loop_rules_dotdot one_png_beside_dest
        (source_dir loop_rules_dotdot)
  ∧ on_modified 10 loop_rules_slash true one_png
    = (Ret tt,
       mkState {[ (py "/src", py "a(1).png") := File (py "A") ]} {[ py "/src" ]}
         no_links no_fault
         [py "Moved: a(1).png" ++ arrow ++ py "/src"])
  ∧ on_modified 10 loop_rules_dotdot true one_png_beside_dest
    = (Ret tt,
       mkState {[ (py "/src", py "a(1).png") := File (py "A") ]}
         {[ py "/src"; py "/dest" ]} no_links no_fault
         [py "Moved: a(1).png" ++ arrow ++ py "/dest/../src"]).
Proof.
  split_and!.
  - intros H. by apply (H (py ".png") (py "/src/")).
  - intros H. by apply (H (py ".png") (py "/dest/../src")).
  - vm_compute. done.
  - vm_compute. done.
Qed.

(** *** The activity log *)

(** C8. Starting from the empty [log_buffer], after any sequence of
    appends the log has at most 50 lines, and they are the last lines
    appended, oldest first; after 60 appends these are the last 50, the
    first 10 being gone. *)
Theorem log_buffer_keeps_last_50 (lines : list (list N)) :
  (length (foldl deque_append [] lines) ≤ 50)%nat
  ∧ foldl deque_append [] lines = drop (length lines - 50) lines
  ∧ (length lines = 60%nat → foldl deque_append [] lines = drop 10 lines).
Proof.
  assert (foldl deque_append [] lines = drop (length lines - 50) lines)
    as Hlog.
  { rewrite foldl_deque_append by (simpl; lia). done. }
  split_and!; [|done|].
  - rewrite Hlog, length_drop. lia.
  - intros Hlen. by rewrite Hlog, Hlen.
Qed.

Lemma log_buffer_keeps_last_50_witness :
  foldl deque_append [] (replicate 10 (py "old") ++ replicate 50 (py "new"))
  = drop 10 (replicate 10 (py "old") ++ replicate 50 (py "new")).
Proof.
  apply (log_buffer_keeps_last_50
           (replicate 10 (py "old") ++ replicate 50 (py "new"))).
  reflexivity.
Defined.

(** ** The scenarios of the design *)

Example scenario_png :
  on_modified 10 png_rules true two_files
  = (Ret tt,
     mkState {[ (py "/dest/images", py "a.png") := File (py "A");
                (py "/src", py "notes.txt") := File (py "N") ]}
             {[ py "/dest/images"; py "/src" ]} no_links no_fault
             [py "Moved: a.png" ++ arrow ++ py "/dest/images"]).
Proof. vm_compute. reflexivity. Qed.

Example scenario_collision :
  on_modified 10 png_rules true
    (mkState {[ (py "/src", py "a.png") := File (py "new");
                (py "/dest/images", py "a.png") := File (py "old") ]}
             {[ py "/src"; py "/dest/images" ]} no_links no_fault [])
  = (Ret tt,
     mkState {[ (py "/dest/images", py "a.png") := File (py "old");
                (py "/dest/images", py "a(1).png") := File (py "new") ]}
             {[ py "/src"; py "/dest/images" ]} no_links no_fault
             [py "Moved: a(1).png" ++ arrow ++ py "/dest/images"]).
Proof. vm_compute. reflexivity. Qed.

Example scenario_file_event :
  on_modified 10 png_rules false two_files = (Ret tt, two_files).
Proof. reflexivity. Qed.

(** A scan that [is_file] ends: the exception leaves [on_modified], with
    nothing moved and nothing logged. *)
Example scenario_is_file_raises :
  on_modified 10 png_rules true
    (mkState {[ (py "/src", py "a.png") := File (py "A") ]} {[ py "/src" ]}
             no_links is_file_fails [])
  = (Exc EIO,
     mkState {[ (py "/src", py "a.png") := File (py "A") ]} {[ py "/src" ]}
             no_links is_file_fails []).
Proof. vm_compute. reflexivity. Qed.
(** * Further properties *)

(** ** Suffixes and rule keys *)

Section suffix_shape.
Implicit Types (s x key pre post : list N) (c : N).
Local Open Scope nat_scope.

Lemma rfind_negative s c : (rfind s c < 0)%Z → occurs c s = false.
Proof.
  intros Hneg. destruct (occurs c s) eqn:Hocc; [|done].
  apply rfind_present in Hocc. lia.
Qed.

(** A found index splits the text at the last occurrence. *)
Lemma rfind_decompose s c :
  (0 ≤ rfind s c)%Z →
  ∃ pre post, s = pre ++ c :: post ∧ occurs c post = false
              ∧ rfind s c = Z.of_nat (length pre).
Proof.
  induction s as [|a s IH]; simpl; [lia|].
  destruct (Z.leb_spec 0 (rfind s c)) as [Hfound|Hnone].
  - intros _. destruct (IH Hfound) as (pre & post & -> & Hpost & Hlen).
    exists (a :: pre), post. split_and!; [done..|].
    rewrite Hlen. simpl. lia.
  - destruct (N.eqb_spec a c) as [->|]; [|lia]. intros _.
    exists [], s. split_and!; [done | by apply rfind_negative | done].
Qed.

(** A name has no suffix, or it is a non-empty stem, a dot and a non-empty
    tail without a dot. *)
Lemma suffix_shape x :
  (suffix x = [] ∧ stem x = x)
  ∨ ∃ pre post, x = pre ++ dot :: post ∧ pre ≠ [] ∧ post ≠ []
                ∧ occurs dot post = false
                ∧ suffix x = dot :: post ∧ stem x = pre.
Proof.
  destruct (decide (0 < rfind x dot < Z.of_nat (length x) - 1)%Z)
    as [Hin|Hout].
  - right. destruct (rfind_decompose x dot) as (pre & post & Hx & Hpost & Hlen);
      [lia|].
    exists pre, post. rewrite Hlen in Hin.
    assert (pre ≠ []) as Hpre.
    { intros ->. simpl in Hin. lia. }
    assert (post ≠ []) as Hpost'.
    { intros ->. rewrite Hx, length_app in Hin. simpl in Hin. lia. }
    destruct (suffix_split pre post Hpre Hpost' Hpost) as [Hsuffix Hstem].
    rewrite Hx. done.
  - left. unfold suffix, stem.
    destruct (Z.ltb_spec 0 (rfind x dot)); simpl; [|done].
    destruct (Z.ltb_spec (rfind x dot) (Z.of_nat (length x) - 1));
      [lia | done].
Qed.

Lemma is_suffix_text_spec key :
  is_suffix_text key = true
  ↔ ∃ post, key = dot :: post ∧ post ≠ [] ∧ occurs dot post = false.
Proof.
  unfold is_suffix_text. split.
  - destruct key as [|c post]; [done|].
    intros [[->%N.eqb_eq Hpost]%andb_true_iff Hdot%negb_true_iff]%andb_true_iff.
    exists post. split_and!; [done | by destruct post | done].
  - intros (post & -> & Hpost & Hdot). rewrite Hdot.
    by destruct post.
Qed.

(** The lowercase form of a suffix is empty, or a dot and a text without
    a dot. *)
Lemma lower_suffix_shape x :
  lower (suffix x) = []
  ∨ is_suffix_text (lower (suffix x)) = true.
Proof.
  destruct (suffix_shape x)
    as [[-> _]|(pre & post & _ & _ & Hpost & Hdot & -> & _)]; [by left|].
  right. apply is_suffix_text_spec.
  exists (lower_from [dot] post). split_and!.
  - done.
  - intros Hempty. by apply lower_from_empty_inv in Hempty.
  - rewrite occurs_lower_from; [done | by left].
Qed.

(** A character of the suffix is a character of the name. *)
Lemma occurs_suffix c x : occurs c (suffix x) = true → occurs c x = true.
Proof.
  rewrite <-(stem_suffix x) at 2. rewrite occurs_app. intros ->.
  apply orb_true_r.
Qed.

End suffix_shape.

(** X1. The keys a file can fall under. The extension of a name is empty
    or a dot followed by at least one character with no further dot, and
    none of its characters is one that [str.lower] changes; it has no
    slash and no NUL, as names have none. Every text of that shape is the
    extension of the name made of "x" and the text. So a rule written as
    "mp3", "." , ".tar.gz" or ".PNG" matches no file at all. *)
Theorem matchable_keys (key : list N) :
  (∀ name, lower (suffix name) = key →
           key = [] ∨ (is_suffix_text key = true ∧ has_lowerable key = false))
  ∧ (∀ name, valid_name name → lower (suffix name) = key →
             occurs slash key = false ∧ occurs 0%N key = false)
  ∧ (key = [] ∨ (is_suffix_text key = true ∧ has_lowerable key = false) →
     lower (suffix (py "x" ++ key)) = key
     ∧ (occurs slash key = false → occurs 0%N key = false →
        valid_name (py "x" ++ key))).
Proof.
  split_and!.
  - intros name <-. destruct (lower_suffix_shape name) as [?|?]; [by left|].
    right. split; [done|]. apply has_lowerable_lower.
  - intros name (_ & _ & _ & Hslash & Hnul) <-.
    rewrite !occurs_lower by (rewrite !elem_of_cons; auto).
    split.
    + destruct (occurs slash (suffix name)) eqn:Hs; [|done].
      apply occurs_suffix in Hs. congruence.
    + destruct (occurs 0%N (suffix name)) eqn:Hs; [|done].
      apply occurs_suffix in Hs. congruence.
  - intros [->|[(post & -> & Hpost & Hdot)%is_suffix_text_spec Hfixed]].
    { split; [done|]. intros _ _. by repeat split. }
    destruct (suffix_split (py "x") post) as [Hsuffix _]; [done..|].
    split.
    + rewrite Hsuffix. by apply lower_fixed.
    + intros Hslash Hnul. by repeat split.
Qed.

Lemma matchable_keys_witness :
  lower (suffix (py "x" ++ py ".mp3")) = py ".mp3"
  ∧ valid_name (py "x" ++ py ".mp3")
  ∧ (∀ name, lower (suffix name) ≠ py "mp3")
  ∧ (∀ name, lower (suffix name) ≠ py ".tar.gz")
  ∧ (∀ name, lower (suffix name) ≠ py ".PNG")
  ∧ (∀ name, valid_name name → lower (suffix name) ≠ py ".a/b").
Proof.
  split_and!.
  - apply (proj2 (proj2 (matchable_keys (py ".mp3")))). right.
    split; reflexivity.
  - apply (proj2 (proj2 (matchable_keys (py ".mp3")))); [|reflexivity..].
    right. split; reflexivity.
  - intros name [[=]|[[=] _]]%(proj1 (matchable_keys (py "mp3"))).
  - intros name [[=]|[[=] _]]%(proj1 (matchable_keys (py ".tar.gz"))).
  - intros name [[=]|[_ [=]]]%(proj1 (matchable_keys (py ".PNG"))).
  - intros name Hvalid
      [[=] _]%(proj1 (proj2 (matchable_keys (py ".a/b"))) name Hvalid).
Defined.

(** X2. A renamed copy keeps its extension: when [x] has a suffix, the name
    [make_unique] builds from it has the same suffix, its stem is the stem
    of [x] with the number, and it falls under the same rule as [x]. *)
Theorem new_name_keeps_suffix (x : list N) (counter : nat) (config : Config) :
  suffix x ≠ [] →
  suffix (new_name (stem x) counter (suffix x)) = suffix x
  ∧ stem (new_name (stem x) counter (suffix x))
    = stem x ++ py "(" ++ py (pretty counter) ++ py ")"
  ∧ rule_of config (new_name (stem x) counter (suffix x)) = rule_of config x.
Proof.
  intros Hsuffix.
  destruct (suffix_shape x)
    as [[? _]|(pre & post & _ & Hpre & Hpost & Hdot & Hsx & Hstx)]; [done|].
  rewrite Hsx, Hstx.
  assert (new_name pre counter (dot :: post)
          = (pre ++ py "(" ++ py (pretty counter) ++ py ")") ++ dot :: post)
    as Hname.
  { unfold new_name. by rewrite <-!(assoc_L (++)). }
  destruct (suffix_split (pre ++ py "(" ++ py (pretty counter) ++ py ")") post)
    as [Hs Ht]; [by destruct pre | done..|].
  rewrite Hname. split_and!; [done..|].
  unfold rule_of. by rewrite Hs, Hsx.
Qed.

Lemma new_name_keeps_suffix_witness :
  suffix (new_name (stem (py "a.b.PNG")) 7 (suffix (py "a.b.PNG")))
  = suffix (py "a.b.PNG")
  ∧ stem (new_name (stem (py "a.b.PNG")) 7 (suffix (py "a.b.PNG")))
    = stem (py "a.b.PNG") ++ py "(" ++ py (pretty 7%nat) ++ py ")"
  ∧ rule_of png_rules (new_name (stem (py "a.b.PNG")) 7 (suffix (py "a.b.PNG")))
    = rule_of png_rules (py "a.b.PNG").
Proof.
  apply (new_name_keeps_suffix (py "a.b.PNG") 7 png_rules). by vm_compute.
Defined.

(** ** The resolver in any directory *)

Section least_free.
Implicit Types (st : State) (d base ext x : list N) (counter : nat).
Local Open Scope nat_scope.

Lemma path_exists_no_fault d x st :
  fault st (SysExists d x) = None →
  path_exists d x st
  = (Ret (bool_decide (is_Some (entries st !! locate st (d, x)))), st).
Proof. unfold path_exists. by intros ->. Qed.

Lemma make_unique_loop_least fuel d base ext counter st :
  (∀ name, fault st (SysExists d name) = None) →
  (∀ st', make_unique_loop fuel d base ext counter st ≠ (OutOfFuel, st')) →
  ∃ k, counter ≤ k
       ∧ make_unique_loop fuel d base ext counter st
         = (Ret (new_name base k ext), st)
       ∧ entries st !! locate st (d, new_name base k ext) = None
       ∧ ∀ j, counter ≤ j < k →
              is_Some (entries st !! locate st (d, new_name base j ext)).
Proof.
  intros Hnofault. revert counter.
  induction fuel as [|fuel IH]; intros counter Hends; [by destruct (Hends st)|].
  simpl in *. unfold bind in *.
  rewrite path_exists_no_fault in * by done.
  case_bool_decide as Htaken; simpl in *.
  - destruct (IH (counter + 1) Hends) as (k & Hk & Hrun & Hfree & Hbelow).
    exists k. split_and!; [lia | done..|].
    intros j Hj. destruct (decide (j = counter)) as [->|]; [done|].
    apply Hbelow. lia.
  - exists counter. split_and!; [done..| |intros j; lia].
    by apply eq_None_not_Some.
Qed.

Lemma make_unique_least fuel d x st :
  size (entries st) < fuel →
  (∀ name, fault st (SysExists d name) = None) →
  ∃ k, 1 ≤ k
       ∧ make_unique fuel d x st = (Ret (new_name (stem x) k (suffix x)), st)
       ∧ entries st !! locate st (d, new_name (stem x) k (suffix x)) = None
       ∧ ∀ j, 1 ≤ j < k →
              is_Some (entries st
                         !! locate st (d, new_name (stem x) j (suffix x))).
Proof.
  intros Hfuel Hnofault. unfold make_unique.
  apply make_unique_loop_least; [done|]. by apply make_unique_loop_ends.
Qed.

End least_free.

(** X3. In any directory whose existence tests do not fail, and with more
    fuel than the file system has entries, [make_unique] returns the
    numbered name with the least counter from 1 on that is free: the name
    it returns does not exist, every lower number does, and the state is
    untouched. *)
Theorem make_unique_least_free (fuel : nat) (d x : list N) (st : State) :
  (size (entries st) < fuel)%nat →
  (∀ name, fault st (SysExists d name) = None) →
  ∃ k, (1 ≤ k)%nat
       ∧ make_unique fuel d x st = (Ret (new_name (stem x) k (suffix x)), st)
       ∧ entries st !! locate st (d, new_name (stem x) k (suffix x)) = None
       ∧ ∀ j, (1 ≤ j < k)%nat →
              is_Some (entries st
                         !! locate st (d, new_name (stem x) j (suffix x))).
Proof.
  intros Hfuel Hnofault. unfold make_unique.
  apply make_unique_loop_least; [done|].
  by apply make_unique_loop_ends.
Qed.

Lemma make_unique_least_free_witness :
  ∃ k, (1 ≤ k)%nat
       ∧ make_unique 10 (py "/dest/images") (py "a.png") gap_in_copies
         = (Ret (new_name (stem (py "a.png")) k (suffix (py "a.png"))),
            gap_in_copies)
       ∧ entries gap_in_copies
           !! locate gap_in_copies
                (py "/dest/images",
                 new_name (stem (py "a.png")) k (suffix (py "a.png")))
         = None
       ∧ ∀ j, (1 ≤ j < k)%nat →
              is_Some (entries gap_in_copies
                         !! locate gap_in_copies
                              (py "/dest/images",
                               new_name (stem (py "a.png")) j
                                 (suffix (py "a.png")))).
Proof.
  apply (make_unique_least_free 10 (py "/dest/images") (py "a.png") gap_in_copies).
  - vm_compute. lia.
  - reflexivity.
Defined.
(** ** The mover, once more *)

Section mover_more.
Implicit Types (st : State) (entry : DirEntry) (dest name : list N).
Implicit Types (config : Config).
Local Open Scope nat_scope.

(** [move_file] with its log line. *)
Lemma move_file_effect_log fuel entry dest name st :
  size (entries st) < fuel →
  ∃ st' line, move_file fuel entry dest name st = (Ret tt, st')
    ∧ fault st' = fault st ∧ realpath st' = realpath st
    ∧ dirs st ⊆ dirs st'
    ∧ relocated entry dest st st'
    ∧ log_buffer st' = deque_append (log_buffer st) line
    ∧ is_move_line line.
Proof.
  intros Hfuel.
  destruct (move_file_cases fuel entry dest name st Hfuel)
    as [(name' & e & s1 & Hs1 & Hcause & ->)|(name' & n & Hsrc & Hfree & ->)].
  - assert ((∃ c e', fault st c = Some e')
            ∨ entries st !! locate st (entry_path entry) = None) as Hcause'.
    { destruct Hcause as [[c Hc]|]; eauto. }
    assert (fault s1 = fault st ∧ realpath s1 = realpath st
            ∧ dirs st ⊆ dirs s1 ∧ entries s1 = entries st
            ∧ log_buffer s1 = log_buffer st) as (Hf & Hr & Hd & He & Hl).
    { destruct Hs1; subst s1; simpl; split_and!; try done.
      apply union_subseteq_r. }
    eexists _, (error_line name' e). split; [done|]. simpl.
    split_and!; [done | done | done | by apply relocated_failed | done |].
    exists name'. right. by exists e.
  - eexists _, (moved_line name' dest). split; [done|]. simpl.
    split_and!;
      [done | done | apply union_subseteq_r | by eapply relocated_moved | done |].
    exists name'. left. by exists dest.
Qed.

Lemma routedb_routed config entry :
  routedb config entry = true ↔ routed config entry.
Proof.
  unfold routedb, routed. rewrite andb_true_iff, bool_decide_eq_true. done.
Qed.

(** One turn of the loop of [on_modified]: [is_file] raises; or the entry
    is passed over; or it is handed to [move_file], which writes one
    line. *)
Lemma scan_body_cases fuel config entry st :
  size (entries st) < fuel →
  (∃ e, scan_body fuel config entry st = (Exc e, st))
  ∨ (routedb config entry = false
     ∧ scan_body fuel config entry st = (Ret tt, st))
  ∨ (routedb config entry = true
     ∧ ∃ st' dest line,
         scan_body fuel config entry st = (Ret tt, st')
         ∧ rule_of config (entry_name entry) = Some dest
         ∧ fault st' = fault st ∧ realpath st' = realpath st
         ∧ dirs st ⊆ dirs st'
         ∧ relocated entry dest st st'
         ∧ log_buffer st' = deque_append (log_buffer st) line
         ∧ is_move_line line).
Proof.
  intros Hfuel. unfold scan_body, routedb, bind.
  destruct (DirEntry_is_file_cases entry st) as [(e & _ & ->)|[_ ->]];
    [left; by exists e|].
  right. destruct (entry_is_file entry); [|by left].
  destruct (rule_of config (entry_name entry)) as [dest|] eqn:Hrule.
  - rewrite (process_file_matched _ _ _ _ _ Hrule).
    destruct (move_file_effect_log fuel entry dest (entry_name entry) st Hfuel)
      as (st' & line & -> & Hrest).
    right. split; [by rewrite bool_decide_eq_true_2|].
    exists st', dest, line. by split.
  - rewrite (process_file_unmatched _ _ _ _ Hrule). left.
    split; [reflexivity|done].
Qed.

(** The loop writes one line for each entry it hands to [move_file], and
    hands over every regular file with a rule unless [is_file] ends the
    scan before. *)
Lemma scan_loop_log fuel config scanned st :
  size (entries st) < fuel →
  ∃ r st' lines, for_each scanned (scan_body fuel config) st = (r, st')
    ∧ log_buffer st' = foldl deque_append (log_buffer st) lines
    ∧ Forall is_move_line lines
    ∧ length lines ≤ length (List.filter (routedb config) scanned)
    ∧ (r = Ret tt →
       length lines = length (List.filter (routedb config) scanned)).
Proof.
  revert st. induction scanned as [|entry scanned IH]; intros st Hfuel.
  { exists (Ret tt), st, []. done. }
  destruct (scan_body_cases fuel config entry st Hfuel)
    as [[e Hrun]|[[Hidle Hrun]
        |(Hrouted & st1 & dest & line & Hrun & _ & _ & _ & _ & Hrel & Hlog & Hline)]].
  - exists (Exc e), st, []. simpl. unfold bind. rewrite Hrun.
    split_and!; [done | done | done | lia | done].
  - destruct (IH st Hfuel) as (r & st' & lines & Hrest & Hlines & Hall & Hle & Hlen).
    exists r, st', lines. simpl. unfold bind. rewrite Hrun, Hidle. done.
  - destruct (IH st1) as (r & st' & lines & Hrest & Hlines & Hall & Hle & Hlen).
    { rewrite (relocated_size _ _ _ _ Hrel). done. }
    exists r, st', (line :: lines). simpl. unfold bind. rewrite Hrun, Hrouted.
    split_and!; [done | by rewrite Hlines, Hlog | by constructor | simpl; lia |].
    intros Hr. simpl. by rewrite Hlen.
Qed.

(** The loop moves every entry it should, when no call fails. *)
Lemma scan_loop_routes fuel config src scanned st entry n dest :
  (∀ c, fault st c = None) →
  no_rule_into config st src →
  (∀ e, e ∈ scanned → entry_dir e = src) →
  size (entries st) < fuel →
  entry ∈ scanned → routed config entry →
  entries st !! locate st (entry_path entry) = Some n →
  rule_of config (entry_name entry) = Some dest →
  ∃ st' name', for_each scanned (scan_body fuel config) st = (Ret tt, st')
               ∧ entries st' !! locate st (dest, name') = Some n.
Proof.
  intros Hnofault Hrules. revert st Hnofault Hrules.
  induction scanned as [|e0 scanned IH];
    intros st Hnofault Hrules Hsrc Hfuel Hin Hrouted Hpath Hrule; [by inv Hin|].
  assert (realpath st dest ≠ realpath st src) as Hdest.
  { unfold rule_of in Hrule.
    destruct (extensions config !! lower (suffix (entry_name entry)))
      as [raw|] eqn:Hraw; [|done].
    injection Hrule as <-. by eapply Hrules. }
  destruct (scan_body_effect fuel config e0 st Hfuel)
    as (r1 & st1 & Hrun & _ & Hfault1 & Hrp1 & _ & Hsize1 & Hidle1 & Hframe1
        & _ & Hgone1).
  destruct (Hgone1 Hnofault) as [-> _].
  assert (size (entries st1) < fuel ∧ ∀ c, fault st1 c = None)
    as [Hfuel1 Hnofault1].
  { split; [lia|]. intros c. by rewrite Hfault1. }
  destruct (decide (locate st (entry_path entry) = locate st (entry_path e0)
                    ∧ routedb config e0 = true))
    as [[Hsame Hrouted0]|Hother].
  - (* the head of the list is the entry: it moves now and stays *)
    destruct (scan_body_cases fuel config e0 st Hfuel)
      as [[e Hrun']|[[Hidle _]
          |(_ & st1' & d0 & l0 & Hrun' & Hrule0 & _ & _ & _ & Hrel & _)]];
      [congruence | congruence |].
    assert (st1' = st1) as -> by congruence.
    assert (d0 = dest) as ->.
    { injection Hsame as _ Hname. rewrite Hname in Hrule. congruence. }
    assert (∃ name', entries st1 !! locate st (dest, name') = Some n)
      as [name' Hmoved].
    { destruct Hrel as [_ [(c & e & Hc)|Hgone]|name' n' Hn' _ Hentries].
      - by rewrite Hnofault in Hc.
      - congruence.
      - exists name'. rewrite Hentries, lookup_insert_eq. congruence. }
    destruct (scan_loop_effect fuel config scanned st1 Hfuel1)
      as (r2 & st' & Hrest & _ & _ & _ & _ & _ & _ & Hframe & _ & Hgone2).
    destruct (Hgone2 Hnofault1) as [-> _].
    exists st', name'. split; [simpl; unfold bind; by rewrite Hrun|].
    apply Hframe; [|done].
    intros e He _ [= Hd _]. rewrite (Hsrc e) in Hd by by right.
    rewrite Hrp1 in Hd. done.
  - (* the entry is further down, and still in place *)
    assert (entries st1 !! locate st (entry_path entry) = Some n) as Hpath1.
    { destruct (decide (routed config e0)) as [Hrouted0|Hidle0].
      - apply Hframe1; [|done]. intros Heq. apply Hother.
        split; [done|]. by apply routedb_routed.
      - by rewrite (Hidle1 Hidle0). }
    assert (entry ∈ scanned) as Hin'.
    { apply elem_of_cons in Hin as [->|]; [|done].
      destruct Hother. split; [done|]. by apply routedb_routed. }
    destruct (IH st1) as (st' & name' & Hrest & Hmoved); try done.
    { by apply (no_rule_into_ext config st st1). }
    { intros e He. apply Hsrc. by right. }
    { by rewrite (locate_ext st st1). }
    exists st', name'. split; [simpl; unfold bind; by rewrite Hrun|].
    by rewrite <-(locate_ext st st1).
Qed.

End mover_more.

(** X5. When no call fails and the source entry exists, [move_file] moves
    it: the destination directory exists afterwards, the node is under
    [name'] there and gone from the source (if the destination is another
    directory), and the line "Moved: name' → dest" is logged. [name'] is
    [name] itself when that was free, and otherwise the numbered name with
    the least free number. *)
Theorem move_file_lands (fuel : nat) (entry : DirEntry) (dest name : list N)
    (n : node) (st : State) :
  (∀ c, fault st c = None) →
  (size (entries st) < fuel)%nat →
  entries st !! locate st (entry_path entry) = Some n →
  ∃ name',
    move_file fuel entry dest name st
    = (Ret tt, moved_state entry dest name' n st)
    ∧ realpath st dest ∈ dirs (moved_state entry dest name' n st)
    ∧ entries (moved_state entry dest name' n st) !! locate st (dest, name')
      = Some n
    ∧ (realpath st dest ≠ realpath st (entry_dir entry) →
       entries (moved_state entry dest name' n st) !! locate st (entry_path entry)
       = None)
    ∧ last (log_buffer (moved_state entry dest name' n st))
      = Some (moved_line name' dest)
    ∧ entries st !! locate st (dest, name') = None
    ∧ (entries st !! locate st (dest, name) = None → name' = name)
    ∧ (is_Some (entries st !! locate st (dest, name)) →
       ∃ k, (1 ≤ k)%nat ∧ name' = new_name (stem name) k (suffix name)
            ∧ ∀ j, (1 ≤ j < k)%nat →
                   is_Some (entries st
                              !! locate st
                                   (dest, new_name (stem name) j (suffix name)))).
Proof.
  intros Hnofault Hfuel Hsrc.
  assert (∀ name',
    entries st !! locate st (dest, name') = None →
    match move (entry_path entry) (dest, name') (made_dir dest st) with
    | (Exc e, s4) => log_append (error_line name' e) s4
    | (OutOfFuel, s4) => (OutOfFuel, s4)
    | (Ret _, s4) => log_append (moved_line name' dest) s4
    end = (Ret tt, moved_state entry dest name' n st)) as Hmove.
  { intros name' Hfree.
    destruct (move_cases entry dest name' st)
      as [(e & [[c Hc]|Hgone] & _)|(n' & _ & Hn' & ->)].
    - by rewrite Hnofault in Hc.
    - congruence.
    - assert (n' = n) as -> by congruence. done. }
  assert (∃ name',
            move_file fuel entry dest name st
            = (Ret tt, moved_state entry dest name' n st)
            ∧ entries st !! locate st (dest, name') = None
            ∧ (entries st !! locate st (dest, name) = None → name' = name)
            ∧ (is_Some (entries st !! locate st (dest, name)) →
               ∃ k, (1 ≤ k)%nat ∧ name' = new_name (stem name) k (suffix name)
                    ∧ ∀ j, (1 ≤ j < k)%nat →
                           is_Some (entries st
                                      !! locate st
                                           (dest, new_name (stem name) j
                                                    (suffix name)))))
    as (name' & Hrun & Hfree & Hkept & Hnumbered).
  { rewrite move_file_unfold.
    destruct (mkdir_cases dest st) as [(e & Hc & _)|[_ ->]];
      [by rewrite Hnofault in Hc|].
    destruct (path_exists_cases dest name (made_dir dest st))
      as [(e & Hc & _)|[_ ->]]; [simpl in Hc; by rewrite Hnofault in Hc|].
    change (locate (made_dir dest st)) with (locate st).
    change (entries (made_dir dest st)) with (entries st).
    case_bool_decide as Hfound.
    - destruct (make_unique_least fuel dest name (made_dir dest st) Hfuel)
        as (k & Hk & -> & Hfree & Hbelow); [intros; apply Hnofault|].
      exists (new_name (stem name) k (suffix name)).
      split_and!; [by apply Hmove | done | | by eauto].
      intros Hnone. rewrite Hnone in Hfound. by destruct Hfound.
    - apply eq_None_not_Some in Hfound. exists name.
      split_and!; [by apply Hmove | done | done |].
      intros [? ?]. congruence. }
  exists name'. rewrite Hrun.
  split_and!; try done.
  - simpl. apply elem_of_union_l. by apply elem_of_singleton.
  - simpl. apply lookup_insert_eq.
  - intros Hdest. simpl. rewrite lookup_insert_ne; [apply lookup_delete_eq|].
    unfold locate, entry_path. simpl. congruence.
  - apply last_deque_append.
Qed.

Lemma move_file_lands_witness :
  ∃ name',
    move_file 10 (mkEntry (py "/src") (py "a.png") true) (py "/dest/images")
      (py "a.png") gap_in_copies
    = (Ret tt, moved_state (mkEntry (py "/src") (py "a.png") true)
                 (py "/dest/images") name' (File (py "new")) gap_in_copies)
    ∧ name' = py "a(1).png".
Proof.
  destruct (move_file_lands 10 (mkEntry (py "/src") (py "a.png") true)
              (py "/dest/images") (py "a.png") (File (py "new")) gap_in_copies)
    as (name' & Hrun & _ & _ & _ & _ & Hfree & _ & Hnumbered);
    [reflexivity | vm_compute; lia | reflexivity |].
  exists name'. split; [exact Hrun|].
  destruct Hnumbered as (k & Hk & -> & Hbelow); [by eexists|].
  destruct k as [|[|k]]; [lia | reflexivity |].
  by destruct (Hbelow 1%nat) as [? ?]; [lia|].
Defined.

(** ** The scanner, once more *)

Section scanner_more.
Implicit Types (st : State) (config : Config).
Local Open Scope nat_scope.

(** A scan raises out of [os.scandir], or runs the loop over the listing. *)
Lemma on_modified_cases fuel config st :
  (∃ e, scandir (source_dir config) st = (Exc e, st)
        ∧ on_modified fuel config true st = (Exc e, st))
  ∨ (fault st (SysScandir (source_dir config)) = None
     ∧ realpath st (source_dir config) ∈ dirs st
     ∧ on_modified fuel config true st
       = for_each (listing (source_dir config)
                     (realpath st (source_dir config)) (entries st))
           (scan_body fuel config) st).
Proof.
  rewrite on_modified_scan. unfold scandir.
  destruct (fault st _) as [e|]; [left; by exists e|].
  case_bool_decide; [by right | left; by eexists].
Qed.

End scanner_more.

(** X6. When no call fails and no rule sends files into the source
    directory, a scan routes every regular file whose extension has a rule:
    afterwards the file is gone from the source directory and a file with
    the same content is in the directory of its rule. *)
Theorem scan_routes_every_matching_file (fuel : nat) (config : Config)
    (st : State) (name content dest : list N) :
  (∀ c, fault st c = None) →
  no_rule_into config st (source_dir config) →
  (size (entries st) < fuel)%nat →
  realpath st (source_dir config) ∈ dirs st →
  entries st !! locate st (source_dir config, name) = Some (File content) →
  extensions config !! lower (suffix name) = Some dest →
  ∃ st' name',
    on_modified fuel config true st = (Ret tt, st')
    ∧ entries st' !! locate st (source_dir config, name) = None
    ∧ entries st' !! locate st (Path dest, name') = Some (File content).
Proof.
  intros Hnofault Hrules Hfuel Hdir Hfile Hrule.
  destruct (on_modified_cases fuel config st) as [(e & Hraise & _)|(_ & _ & ->)].
  { unfold scandir in Hraise.
    rewrite Hnofault, bool_decide_eq_true_2 in Hraise by done. done. }
  set (src := source_dir config) in *.
  set (entry := mkEntry src name true).
  assert (entry ∈ listing src (realpath st src) (entries st)) as Hin.
  { apply elem_of_listing. by exists (File content). }
  assert (rule_of config (entry_name entry) = Some (Path dest)) as Hrule'.
  { unfold rule_of. simpl. by rewrite Hrule. }
  assert (routed config entry) as Hrouted.
  { split; [done|]. eauto. }
  destruct (scan_loop_routes fuel config src
              (listing src (realpath st src) (entries st)) st entry
              (File content) (Path dest)) as (st' & name' & Hrun & Hmoved);
    try done.
  { by intros e (n & _ & ->)%elem_of_listing. }
  exists st', name'. split_and!; [done | | done].
  destruct (scan_loop_effect fuel config
              (listing src (realpath st src) (entries st)) st Hfuel)
    as (r2 & st2 & Hrun2 & _ & _ & _ & _ & _ & _ & _ & _ & Hgone).
  assert (st2 = st') as -> by congruence.
  destruct (Hgone Hnofault) as [_ Hgone'].
  by apply (Hgone' entry Hin Hrules Hrouted).
Qed.

Lemma scan_routes_every_matching_file_witness :
  ∃ st' name',
    on_modified 10 png_rules true two_files = (Ret tt, st')
    ∧ entries st' !! (py "/src", py "a.png") = None
    ∧ entries st' !! (py "/dest/images", name') = Some (File (py "A")).
Proof.
  apply (scan_routes_every_matching_file 10 png_rules two_files (py "a.png")
           (py "A") (py "/dest/images")).
  - reflexivity.
  - by apply png_rules_leave_source.
  - vm_compute. lia.
  - by vm_compute.
  - reflexivity.
  - reflexivity.
Defined.

(** X9. When no rule sends files into the source directory, a scan writes
    one line to the log for each regular file of the listing that has a
    rule, a "Moved" or an "Error moving" line, and nothing else: as many
    lines as there are such files when the scan returns, and no more than
    that when an exception of [os.scandir] or of [is_file] ends it. The
    log is then the old log with these lines after it, cut to its last 50
    lines. *)
Theorem scan_log_lines (fuel : nat) (config : Config) (st st' : State)
    (r : res unit) :
  (size (entries st) < fuel)%nat →
  no_rule_into config st (source_dir config) →
  (length (log_buffer st) ≤ 50)%nat →
  on_modified fuel config true st = (r, st') →
  ∃ lines,
    log_buffer st'
    = drop (length (log_buffer st ++ lines) - 50) (log_buffer st ++ lines)
    ∧ Forall is_move_line lines
    ∧ (length lines
       ≤ length (List.filter (routedb config)
                   (listing (source_dir config)
                      (realpath st (source_dir config)) (entries st))))%nat
    ∧ (r = Ret tt →
       length lines
       = length (List.filter (routedb config)
                   (listing (source_dir config)
                      (realpath st (source_dir config)) (entries st))))
    ∧ (∀ e, scandir (source_dir config) st = (Exc e, st) → lines = []).
Proof.
  intros Hfuel _ Hbound.
  destruct (on_modified_cases fuel config st) as [(e & Hscan & ->)|(Hf & Hd & ->)].
  { intros [= <- <-]. exists []. rewrite app_nil_r.
    replace (length (log_buffer st) - 50)%nat with 0%nat by lia.
    split_and!; [done | done | simpl; lia | done | done]. }
  destruct (scan_loop_log fuel config
              (listing (source_dir config) (realpath st (source_dir config))
                 (entries st)) st Hfuel)
    as (r2 & st2 & lines & -> & Hlog & Hall & Hle & Hlen).
  intros [= <- <-]. exists lines. split_and!; [|done..|].
  - by rewrite Hlog, foldl_deque_append.
  - intros e Hscan. unfold scandir in Hscan. rewrite Hf in Hscan.
    by rewrite bool_decide_eq_true_2 in Hscan.
Qed.

Lemma scan_log_lines_witness :
  ∃ lines,
    log_buffer (on_modified 10 png_rules true mixed_source).2
    = drop (length (log_buffer mixed_source ++ lines) - 50)
        (log_buffer mixed_source ++ lines)
    ∧ Forall is_move_line lines
    ∧ (length lines
       ≤ length (List.filter (routedb png_rules)
                   (listing (source_dir png_rules)
                      (realpath mixed_source (source_dir png_rules))
                      (entries mixed_source))))%nat
    ∧ ((on_modified 10 png_rules true mixed_source).1 = Ret tt →
       length lines
       = length (List.filter (routedb png_rules)
                   (listing (source_dir png_rules)
                      (realpath mixed_source (source_dir png_rules))
                      (entries mixed_source))))
    ∧ (∀ e, scandir (source_dir png_rules) mixed_source = (Exc e, mixed_source) →
            lines = []).
Proof.
  apply (scan_log_lines 10 png_rules mixed_source).
  - vm_compute. lia.
  - by apply png_rules_leave_source.
  - vm_compute. lia.
  - apply surjective_pairing.
Defined.

Example mixed_source_scan :
  (λ key, entries (on_modified 10 png_rules true mixed_source).2 !! key)
    <$> [(py "/src", py "a.png"); (py "/src", py "b.PNG");
         (py "/src", py "notes.txt"); (py "/src", py "old.png");
         (py "/dest/images", py "a.png"); (py "/dest/images", py "a(1).png");
         (py "/dest/images", py "b.PNG")]
  = [None; None; Some (File (py "N")); Some Directory; Some (File (py "old"));
     Some (File (py "A")); Some (File (py "B"))]
  ∧ length (log_buffer (on_modified 10 png_rules true mixed_source).2) = 2%nat.
Proof. vm_compute. split; reflexivity. Qed.

(** ** The rule editor *)

Section editor.
Implicit Types (config : Config).

Lemma truthy_spec (s : list N) : truthy s = true ↔ s ≠ [].
Proof. by destruct s. Qed.

Lemma ui_step_editor_made config a :
  editor_made config → editor_made (ui_step config a).
Proof.
  intros Hmade key dest. destruct a as [new_ext new_dest|ext|dir]; simpl.
  - unfold add_new_rule.
    destruct (truthy new_ext) eqn:Hext; simpl; [|by apply Hmade].
    destruct (truthy new_dest) eqn:Hdest; simpl; [|by apply Hmade].
    intros [[<- <-]|[_ Hold]]%lookup_insert_Some; [|by apply Hmade].
    apply truthy_spec in Hext, Hdest.
    split_and!; [|apply has_lowerable_lower|done].
    intros Hempty. by apply lower_empty_inv in Hempty.
  - intros [_ Hold]%lookup_delete_Some. by apply Hmade.
  - by apply Hmade.
Qed.

Lemma ui_session_editor_made config actions :
  editor_made config → editor_made (foldl ui_step config actions).
Proof.
  revert config. induction actions as [|a actions IH]; intros config Hmade;
    [done|].
  simpl. by apply IH, ui_step_editor_made.
Qed.

End editor.

(** X10. A rule table made in the editor of [main], from the configuration
    of a missing file on and by any sequence of its three buttons, has no
    empty key, no key with a character that [str.lower] changes (so none
    of A to Z) and no empty destination. With such a table a name without
    a dot is never handed to [move_file]. *)
Theorem editor_tables_are_clean (actions : list ui_action) :
  (∀ key dest, extensions (ui_session actions) !! key = Some dest →
               key ≠ [] ∧ has_lowerable key = false ∧ dest ≠ [])
  ∧ (∀ fuel entry st,
        occurs dot (entry_name entry) = false →
        process_file fuel (ui_session actions) entry st = (Ret tt, st)).
Proof.
  assert (editor_made (ui_session actions)) as Hmade.
  { apply ui_session_editor_made. intros key dest Hkey. simpl in Hkey.
    by rewrite lookup_empty in Hkey. }
  split; [exact Hmade|].
  intros fuel entry st Hdot. apply process_file_unmatched. unfold rule_of.
  destruct (suffix_no_dot _ Hdot) as [-> _].
  change (lower []) with (@nil N).
  destruct (extensions (ui_session actions) !! []) as [dest|] eqn:Hkey; [|done].
  by destruct (Hmade _ _ Hkey) as [? _].
Qed.

Lemma editor_tables_are_clean_witness :
  extensions (ui_session [AddNewRule (py ".PNG") (py "/dest/images");
                          AddNewRule (py "") (py "/misc");
                          SaveSourceDirectory (py "/src")]) !! py ".png"
  = Some (py "/dest/images")
  ∧ py ".png" ≠ [] ∧ has_lowerable (py ".png") = false ∧ py "/dest/images" ≠ []
  ∧ process_file 10
      (ui_session [AddNewRule (py ".PNG") (py "/dest/images");
                   AddNewRule (py "") (py "/misc");
                   SaveSourceDirectory (py "/src")])
      (mkEntry (py "/src") (py "README") true) readme_only
    = (Ret tt, readme_only).
Proof.
  destruct (editor_tables_are_clean
              [AddNewRule (py ".PNG") (py "/dest/images");
               AddNewRule (py "") (py "/misc");
               SaveSourceDirectory (py "/src")]) as [Hkeys Hidle].
  split; [reflexivity|].
  split; [apply (Hkeys (py ".png") (py "/dest/images")); reflexivity|].
  split; [apply (Hkeys (py ".png") (py "/dest/images")); reflexivity|].
  split; [apply (Hkeys (py ".png") (py "/dest/images")); reflexivity|].
  apply Hidle. reflexivity.
Defined.

(** X11. "Add New Rule" with both fields filled in saves a table in which
    every name whose lowercased suffix is the lowercased new extension goes
    to [move_file] with the new destination, whatever the case the rule or
    the name was typed in; every other name is treated as before; and
    after "Remove" of that rule those names are left alone again. With a
    field left empty nothing is saved. *)
Theorem added_rule_routes (new_ext new_dest : list N) (config : Config) :
  (new_ext ≠ [] → new_dest ≠ [] →
   ∃ config', add_new_rule new_ext new_dest config = Saved config'
     ∧ source_dir config' = source_dir config
     ∧ (∀ fuel entry st,
           lower (suffix (entry_name entry)) = lower new_ext →
           process_file fuel config' entry st
           = move_file fuel entry (Path new_dest) (entry_name entry) st)
     ∧ (∀ fuel entry st,
           lower (suffix (entry_name entry)) ≠ lower new_ext →
           process_file fuel config' entry st = process_file fuel config entry st)
     ∧ (∀ fuel entry st,
           lower (suffix (entry_name entry)) = lower new_ext →
           process_file fuel (remove_rule (lower new_ext) config') entry st
           = (Ret tt, st)))
  ∧ (new_ext = [] ∨ new_dest = [] →
     ∃ message, add_new_rule new_ext new_dest config = UiError message).
Proof.
  split.
  - intros Hext%truthy_spec Hdest%truthy_spec. unfold add_new_rule.
    rewrite Hext, Hdest. simpl. eexists. split_and!; [done..| | |].
    + intros fuel entry st Hsuffix. apply process_file_matched.
      unfold rule_of. simpl. by rewrite Hsuffix, lookup_insert_eq.
    + intros fuel entry st Hsuffix. unfold process_file. simpl.
      by rewrite lookup_insert_ne.
    + intros fuel entry st Hsuffix. apply process_file_unmatched.
      unfold rule_of. simpl. by rewrite Hsuffix, lookup_delete_eq.
  - intros [-> | ->]; unfold add_new_rule; simpl; [by eexists|].
    rewrite andb_false_r. by eexists.
Qed.

Lemma added_rule_routes_witness :
  ∃ config', add_new_rule (py ".PNG") (py "/dest/images") default_config
             = Saved config'
    ∧ process_file 10 config' (mkEntry (py "/src") (py "a.png") true) two_files
      = move_file 10 (mkEntry (py "/src") (py "a.png") true)
          (Path (py "/dest/images")) (py "a.png") two_files.
Proof.
  destruct (proj1 (added_rule_routes (py ".PNG") (py "/dest/images") default_config))
    as (config' & Hsaved & _ & Hroutes & _); [done | done |].
  exists config'. split; [exact Hsaved|]. apply Hroutes. reflexivity.
Defined.
